(** * packer-plugin-win-update: the update provisioner

    A shallow embedding of [provisioner/update/provisioner.go]: the
    defaulting done by [Prepare], the two retried phases [uploadScript] and
    [runWindowsUpdate], their sequencing in [Provision], and the command
    encoding of [getWindowsUpdateCommand] / [encodeUtf16Le].

    Conventions.
    - Go [string] is [string] (a sequence of 8-bit [ascii]); [[]byte] is
      [list Z] with every element in [0, 256); [rune], [uint16], [int],
      [uint] and [time.Duration] are [Z], with the conversions between them
      written out.
    - The collaborators the package only calls (the local file system behind
      [os.CreateTemp], the communicator behind [RemoteCmd.RunWithUi], the
      context and the timer of the retry package) are oracles collected in
      [Env]; what the code does to them is recorded in [World].
    - Effects are threaded by the monad [M]; a retry loop that the code lets
      run without bound is cut by a fuel argument, and [None] stands for a
      call that has not returned within that fuel. *)

From Stdlib Require Import ZArith List String Ascii Bool Lia DecimalString.
Import ListNotations.

Local Open Scope string_scope.
Local Open Scope Z_scope.

(** ** Errors *)

(** A Go [error] value.  [ErrorString msg] is an error whose text is [msg]
    (what [fmt.Errorf] builds, and what the collaborators hand back);
    [RetryExhaustedError] is the wrapper of the retry package around the
    last error of the loop.  A nil error is [None : option error]. *)
#[warnings="-register-all"]
Inductive error : Type :=
| ErrorString (msg : string)
| RetryExhaustedError (Err : option error).

(** [fmt.Sprintf("%d", n)] for an [int]. *)
Definition fmt_d (n : Z) : string := NilZero.string_of_int (Z.to_int n).

(** [len(s)] of a Go string. *)
Definition len (s : string) : Z := Z.of_nat (String.length s).

(** ** Constants of the package *)

Definition second : Z := 1000000000.
Definition minute : Z := 60 * second.
Definition hour : Z := 60 * minute.

Definition DefaultRestartTimeout : Z := 1 * hour.
Definition DefaultUploadRetryAttempts : Z := 5.
Definition DefaultUploadRetryDelay : Z := 30 * second.
Definition DefaultUploadTimeout : Z := 5 * minute.
Definition DefaultUpdateRetryAttempts : Z := 5.
Definition DefaultUpdateTimeout : Z := 4 * hour.
Definition DefaultUpdateRetryDelay : Z := 10 * second.
Definition DefaultUpdateAttempts : Z := 3.
Definition RestartCommand : string :=
  "shutdown.exe -f -r -t 0 -c " ++ String (ascii_of_nat 34)
    ("Packer Windows Update Restart" ++ String (ascii_of_nat 34) "").

(** ** Configuration *)

(** The fields of [Config] that the code reads.  A nil slice is [None]. *)
Record Config : Type := {
  Username : string;
  Password : string;
  CategoryIDs : option (list string);
  CabFiles : option (list string);
  InstallAllUpdates : bool;
  IncludeHiddenUpdates : bool;
  InstallOptionalUpdates : bool;
  InstallRecommendedUpdates : bool;
  InstallImportantUpdates : bool;
  UpdateTimeout : Z;
  UpdateRetryAttempts : Z;
  UploadRetryAttempts : Z;
  UploadRetryDelay : Z;
  UploadTimeout : Z;
  RestartTimeout : Z;
  DisableRestartAfterUpdates : bool
}.

(** The conversion [int(u)] of a [uint] (both 64 bits wide). *)
Definition int_of_uint (u : Z) : Z :=
  if u <? 2 ^ 63 then u else u - 2 ^ 64.

(** ** The world outside the package *)

(** One run of a remote command through [RemoteCmd.RunWithUi]: the bytes it
    delivers to [Stdout] and [Stderr], and either the error the call returns
    or the exit status the command ends with. *)
Record RemoteRun : Type := {
  run_stdout : list Z;
  run_stderr : list Z;
  run_status : string + Z
}.

(** The oracles.  Each is asked with the number of earlier events of its
    kind, so an answer may depend on everything done so far. *)
Record Env : Type := {
  (** the n-th [os.CreateTemp]: the error text, or the name of the new file *)
  os_CreateTemp : nat -> string + string;
  (** [WriteTo] on the n-th temporary file: [None] when every byte is
      written, else the number of bytes written and the error text *)
  file_WriteTo : nat -> option (nat * string);
  (** [Close] on the n-th temporary file *)
  file_Close : nat -> option string;
  (** the n-th command started on the communicator *)
  comm_Run : nat -> string -> RemoteRun;
  (** whether [ctx.Done()] is ready at the n-th [select] of a retry loop *)
  ctx_Done : nat -> bool;
  (** whether the [StartTimeout] timer has fired at the n-th [select] *)
  timer_Fired : nat -> bool
}.

(** What the package has done to its collaborators, oldest event first. *)
Record World : Type := {
  said : list string;                (* texts the package gives to [ui.Say] *)
  temps : nat;                       (* calls of [os.CreateTemp] *)
  files : list (string * list Z);    (* local files created, with contents *)
  started : list string;             (* commands started on the communicator *)
  polls : nat;                       (* [select]s evaluated by retry loops *)
  slept : list Z                     (* durations given to [time.Sleep] *)
}.

Definition world0 : World :=
  {| said := []; temps := 0; files := []; started := []; polls := 0;
     slept := [] |}.

(** ** The monad of effects *)

Definition M (A : Type) : Type := World -> option (A * World).

Definition ret {A} (a : A) : M A := fun w => Some (a, w).

Definition bind {A B} (m : M A) (k : A -> M B) : M B :=
  fun w => match m w with
           | Some (a, w') => k a w'
           | None => None
           end.

Notation "x <- m ;; k" := (bind m (fun x => k))
  (at level 61, m at next level, right associativity).
Notation "m ;;; k" := (bind m (fun _ => k))
  (at level 61, right associativity).

Definition saying (msg : string) (w : World) : World :=
  {| said := said w ++ [msg]; temps := temps w; files := files w;
     started := started w; polls := polls w; slept := slept w |}.

(** [ui.Say(msg)] *)
Definition Say (msg : string) : M unit := fun w => Some (tt, saying msg w).

(** Whether the [select] of a retry loop, evaluated as the p-th one, finds
    the context done or the timer fired.  The timer exists only for a
    [StartTimeout] other than 0. *)
Definition expired (env : Env) (timeout : Z) (p : nat) : bool :=
  ctx_Done env p || (negb (timeout =? 0) && timer_Fired env p).

Definition polled (w : World) : World :=
  {| said := said w; temps := temps w; files := files w;
     started := started w; polls := S (polls w); slept := slept w |}.

Definition asleep (d : Z) (w : World) : World :=
  {| said := said w; temps := temps w; files := files w;
     started := started w; polls := polls w; slept := slept w ++ [d] |}.

(** [time.Sleep(d)] *)
Definition Sleep (d : Z) : M unit := fun w => Some (tt, asleep d w).

Definition poll (env : Env) (timeout : Z) : M bool := fun w =>
  Some (expired env timeout (polls w), polled w).

(** [os.CreateTemp("", "Invoke-WinUpdate*.ps1")]: on success an empty file
    of the given name exists; the result carries the handle (the ordinal of
    the file) and its name. *)
Definition CreateTemp (env : Env) : M (string + nat * string) := fun w =>
  let n := temps w in
  match os_CreateTemp env n with
  | inl msg =>
      Some (inl msg,
            {| said := said w; temps := S n; files := files w;
               started := started w; polls := polls w; slept := slept w |})
  | inr name =>
      Some (inr (n, name),
            {| said := said w; temps := S n;
               files := files w ++ [(name, [])];
               started := started w; polls := polls w; slept := slept w |})
  end.

(** Replace the contents of the file created last. *)
Definition set_last_content (fs : list (string * list Z)) (c : list Z)
  : list (string * list Z) :=
  match rev fs with
  | [] => []
  | (name, _) :: r => rev r ++ [(name, c)]
  end.

(** [bytes.NewBuffer(data).WriteTo(tmpFile)] on the file just created. *)
Definition WriteTo (env : Env) (h : nat) (data : list Z) : M (option string) :=
  fun w =>
  let '(written, res) :=
    match file_WriteTo env h with
    | None => (data, None)
    | Some (k, msg) => (firstn k data, Some msg)
    end in
  Some (res,
        {| said := said w; temps := temps w;
           files := set_last_content (files w) written;
           started := started w; polls := polls w; slept := slept w |}).

(** [tmpFile.Close()] *)
Definition Close (env : Env) (h : nat) : M (option string) := fun w =>
  Some (file_Close env h, w).

Definition starting (command : string) (w : World) : World :=
  {| said := said w; temps := temps w; files := files w;
     started := started w ++ [command]; polls := polls w; slept := slept w |}.

(** The communicator starts [command] and the caller waits for its end. *)
Definition comm_start (env : Env) (command : string) : M RemoteRun := fun w =>
  Some (comm_Run env (List.length (started w)) command, starting command w).

(** ** The retry package *)

Module retry.

(** [retry.Config], with the closure [RetryDelay] given by the duration it
    returns. *)
Record Config : Type := {
  StartTimeout : Z;
  RetryDelay : option Z;
  Tries : Z;
  ShouldRetry : option (error -> bool)
}.

Section Run.
Variable env : Env.
(** [L] holds the variables of the caller that the closure [fn]
    assigns to. *)
Context {L : Type}.
Variable cfg : Config.
Variable fn : L -> M (option error * L).

Definition retryDelay : Z :=
  match RetryDelay cfg with Some d => d | None => 2 * second end.

Definition shouldRetry (e : error) : bool :=
  match ShouldRetry cfg with Some f => f e | None => true end.

(** Modelled from the spec: the retry primitive of section 4.1, which
    is the [retry] package of the plugin SDK and not part of these
    sources.  [fn] is invoked up to [Tries] times; an attempt without
    error stops the loop; after a failed attempt the last error is
    returned at once when the context is done or the overall timeout
    has elapsed, else the loop waits [retryDelay] and goes on; when the
    attempts are used up the last error is returned wrapped.  Defaults
    are applied at configuration time and not here: a [Tries] of 0 is no
    count to reach, so it puts no bound on the attempts, which is why the
    loop takes fuel.  [try] is the loop counter and [err] the last
    error. *)
Fixpoint loop (fuel : nat) (try : Z) (err : option error) (l : L)
  : M (option error * L) :=
  match fuel with
  | O => fun _ => None
  | S fuel' =>
      if negb (Tries cfg =? 0) && (try =? Tries cfg)
      then ret (Some (RetryExhaustedError err), l)
      else
        r <- fn l ;;
        let '(e, l1) := r in
        match e with
        | None => ret (None, l1)
        | Some e1 =>
            if negb (shouldRetry e1) then ret (Some e1, l1)
            else
              stop <- poll env (StartTimeout cfg) ;;
              if (stop : bool) then ret (Some e1, l1)
              else Sleep retryDelay ;;; loop fuel' (try + 1) (Some e1) l1
        end
  end.

Definition Run (fuel : nat) (l : L) : M (option error * L) :=
  loop fuel 0 None l.
End Run.

End retry.

(** ** Prepare *)

Section Prepare.
(** [filepath.Abs(path)] and [uuid.Parse(id)] return without error *)
Variable filepath_Abs_ok : string -> bool.
Variable uuid_Parse_ok : string -> bool.

(** The defaults of [Prepare], applied to the decoded configuration. *)
Definition apply_defaults (c : Config) : Config :=
  let uploadRetryAttempts :=
    if UploadRetryAttempts c <=? 0 then DefaultUploadRetryAttempts
    else UploadRetryAttempts c in
  let uploadRetryDelay :=
    if UploadRetryDelay c <=? 0 then DefaultUploadRetryDelay
    else UploadRetryDelay c in
  let uploadTimeout :=
    if UploadTimeout c <=? 0 then DefaultUploadTimeout
    else UploadTimeout c in
  let restartTimeout :=
    if RestartTimeout c <=? 0 then DefaultRestartTimeout
    else RestartTimeout c in
  let updateRetryAttempts :=
    if UpdateRetryAttempts c <=? 0 then DefaultUpdateRetryAttempts
    else UpdateRetryAttempts c in
  let updateTimeout :=
    if UpdateTimeout c <=? 0 then DefaultUpdateTimeout
    else UpdateTimeout c in
  let specifiedUpdates :=
    InstallImportantUpdates c || InstallOptionalUpdates c
    || InstallRecommendedUpdates c
    || (match CabFiles c with Some _ => true | None => false end)
    || (match CategoryIDs c with Some _ => true | None => false end) in
  {| Username := Username c;
     Password := Password c;
     CategoryIDs := CategoryIDs c;
     CabFiles := CabFiles c;
     InstallAllUpdates :=
       if negb specifiedUpdates then true else InstallAllUpdates c;
     IncludeHiddenUpdates := IncludeHiddenUpdates c;
     InstallOptionalUpdates := InstallOptionalUpdates c;
     InstallRecommendedUpdates := InstallRecommendedUpdates c;
     InstallImportantUpdates := InstallImportantUpdates c;
     UpdateTimeout := updateTimeout;
     UpdateRetryAttempts := updateRetryAttempts;
     UploadRetryAttempts := uploadRetryAttempts;
     UploadRetryDelay := uploadRetryDelay;
     UploadTimeout := uploadTimeout;
     RestartTimeout := restartTimeout;
     DisableRestartAfterUpdates := DisableRestartAfterUpdates c |}.

(** The errors accumulated by the two validation loops. *)
Definition validation_errors (c : Config) : list error :=
  (match CabFiles c with
   | Some cabs =>
       flat_map (fun cabFile =>
         if filepath_Abs_ok cabFile then []
         else [ErrorString
                 ("invalid file path for provided cab file: " ++ cabFile)])
         cabs
   | None => []
   end)
  ++
  (match CategoryIDs c with
   | Some ids =>
       flat_map (fun categoryID =>
         if uuid_Parse_ok categoryID then []
         else [ErrorString
                 ("invalid Windows Category UUID format: " ++ categoryID)])
         ids
   | None => []
   end).

(** [Prepare], from the point where [config.Decode] has returned
    [decoded] (or has failed): the configuration the provisioner holds
    afterwards, and the errors returned (none for a nil error). *)
Definition Prepare (decoded : error + Config) (before : Config)
  : Config * list error :=
  match decoded with
  | inl e => (before, [e])
  | inr c =>
      let c' := apply_defaults c in
      (c', validation_errors c')
  end.
End Prepare.

(** ** Text encodings of the Go library *)

(** [byte(v)] and [uint16(v)]: the low bits of an integer. *)
Definition byte (v : Z) : Z := v mod 256.
Definition uint16 (v : Z) : Z := v mod 65536.

(** The value of one byte of a Go string. *)
Definition byte_of_ascii (c : ascii) : Z := Z.of_N (N_of_ascii c).

Module utf8.

Definition RuneError : Z := 65533.

(** The table [first]: [None] for a byte that cannot start a sequence,
    else the length of the sequence and the range accepted for its
    second byte (length 1 for ASCII). *)
Definition first (p0 : Z) : option (Z * Z * Z) :=
  if p0 <? 128 then Some (1, 0, 0)
  else if p0 <? 194 then None
  else if p0 <? 224 then Some (2, 128, 191)
  else if p0 =? 224 then Some (3, 160, 191)
  else if p0 <? 237 then Some (3, 128, 191)
  else if p0 =? 237 then Some (3, 128, 159)
  else if p0 <? 240 then Some (3, 128, 191)
  else if p0 =? 240 then Some (4, 144, 191)
  else if p0 <? 244 then Some (4, 128, 191)
  else if p0 =? 244 then Some (4, 128, 143)
  else None.

(** Not a continuation byte. *)
Definition not_cont (b : Z) : bool := (b <? 128) || (191 <? b).

(** The conversion [[]rune(s)]: the string is decoded as UTF-8, and a
    byte that starts no valid sequence gives [RuneError] and is skipped
    alone. *)
Fixpoint runes (s : string) : list Z :=
  match s with
  | EmptyString => []
  | String c0 s1 =>
      let p0 := byte_of_ascii c0 in
      match first p0 with
      | None => RuneError :: runes s1
      | Some (sz, lo, hi) =>
          if sz =? 1 then p0 :: runes s1
          else
            match s1 with
            | EmptyString => RuneError :: runes s1
            | String c1 s2 =>
                let b1 := byte_of_ascii c1 in
                if (b1 <? lo) || (hi <? b1) then RuneError :: runes s1
                else if sz <=? 2 then
                  Z.lor (Z.shiftl (Z.land p0 31) 6) (Z.land b1 63)
                    :: runes s2
                else
                  match s2 with
                  | EmptyString => RuneError :: runes s1
                  | String c2 s3 =>
                      let b2 := byte_of_ascii c2 in
                      if not_cont b2 then RuneError :: runes s1
                      else if sz <=? 3 then
                        Z.lor (Z.lor (Z.shiftl (Z.land p0 15) 12)
                                     (Z.shiftl (Z.land b1 63) 6))
                              (Z.land b2 63)
                          :: runes s3
                      else
                        match s3 with
                        | EmptyString => RuneError :: runes s1
                        | String c3 s4 =>
                            let b3 := byte_of_ascii c3 in
                            if not_cont b3 then RuneError :: runes s1
                            else
                              Z.lor (Z.lor (Z.lor
                                       (Z.shiftl (Z.land p0 7) 18)
                                       (Z.shiftl (Z.land b1 63) 12))
                                       (Z.shiftl (Z.land b2 63) 6))
                                    (Z.land b3 63)
                                :: runes s4
                        end
                  end
            end
      end
  end.

End utf8.

Module utf16.

Definition replacementChar : Z := 65533.
Definition maxRune : Z := 1114111.
Definition surr1 : Z := 55296.
Definition surr2 : Z := 56320.
Definition surr3 : Z := 57344.
Definition surrSelf : Z := 65536.

(** [EncodeRune] for a rune that needs a surrogate pair. *)
Definition EncodeRune (r : Z) : Z * Z :=
  let r := r - surrSelf in
  (surr1 + Z.land (Z.shiftr r 10) 1023, surr2 + Z.land r 1023).

(** The code units of one rune. *)
Definition units (v : Z) : list Z :=
  if ((0 <=? v) && (v <? surr1)) || ((surr3 <=? v) && (v <? surrSelf))
  then [uint16 v]
  else if (surrSelf <=? v) && (v <=? maxRune)
  then let '(r1, r2) := EncodeRune v in [uint16 r1; uint16 r2]
  else [uint16 replacementChar].

(** [utf16.Encode(s)] *)
Definition Encode (s : list Z) : list Z := flat_map units s.

End utf16.

Module base64.

(** The alphabet [encodeStd] and the padding of [StdEncoding]. *)
Definition encodeStd : string :=
  "ABCDEFGHIJKLMNOPQRSTUVWXYZabcdefghijklmnopqrstuvwxyz0123456789+/".
Definition StdPadding : ascii := "="%char.

(** [enc.encode[i]] *)
Definition encode (i : Z) : ascii :=
  match String.get (Z.to_nat i) encodeStd with
  | Some c => c
  | None => zero
  end.

(** [StdEncoding.EncodeToString(src)]: three bytes give four characters;
    a remainder of one or two bytes gives two or three characters and
    padding. *)
Fixpoint EncodeToString (src : list Z) : string :=
  match src with
  | [] => EmptyString
  | [s0] =>
      let val := Z.shiftl s0 16 in
      String (encode (Z.land (Z.shiftr val 18) 63))
        (String (encode (Z.land (Z.shiftr val 12) 63))
           (String StdPadding (String StdPadding EmptyString)))
  | [s0; s1] =>
      let val := Z.lor (Z.shiftl s0 16) (Z.shiftl s1 8) in
      String (encode (Z.land (Z.shiftr val 18) 63))
        (String (encode (Z.land (Z.shiftr val 12) 63))
           (String (encode (Z.land (Z.shiftr val 6) 63))
              (String StdPadding EmptyString)))
  | s0 :: s1 :: s2 :: rest =>
      let val := Z.lor (Z.lor (Z.shiftl s0 16) (Z.shiftl s1 8)) s2 in
      String (encode (Z.land (Z.shiftr val 18) 63))
        (String (encode (Z.land (Z.shiftr val 12) 63))
           (String (encode (Z.land (Z.shiftr val 6) 63))
              (String (encode (Z.land val 63))
                 (EncodeToString rest))))
  end.

End base64.

(** ** Command construction *)

(** The assignment [b[i] = v]; [None] is the run-time panic of an index out
    of range. *)
Definition store (b : list Z) (i : nat) (v : Z) : option (list Z) :=
  if (i <? List.length b)%nat
  then Some (firstn i b ++ v :: skipn (S i) b)%list
  else None.

(** The loop of [encodeUtf16Le] over the code units [d], from index [i]. *)
Fixpoint encodeUtf16Le_loop (d : list Z) (i : nat) (b : list Z)
  : option (list Z) :=
  match d with
  | [] => Some b
  | r :: d' =>
      match store b (i * 2) (byte r) with
      | None => None
      | Some b1 =>
          match store b1 (i * 2 + 1) (byte (Z.shiftr r 8)) with
          | None => None
          | Some b2 => encodeUtf16Le_loop d' (S i) b2
          end
      end
  end.

(** [encodeUtf16Le(s)]; [None] if an index were out of range. *)
Definition encodeUtf16Le_run (s : string) : option (list Z) :=
  let d := utf16.Encode (utf8.runes s) in
  let b := repeat 0 (List.length d * 2) in
  encodeUtf16Le_loop d 0 b.

Definition encodeUtf16Le (s : string) : list Z :=
  match encodeUtf16Le_run s with
  | Some b => b
  | None => []
  end.

Definition command_prefix : string :=
  "PowerShell -ExecutionPolicy Bypass -NoProfile -OutputFormat Text -EncodedCommand ".

Definition getWindowsUpdateCommand (script : string) : string :=
  command_prefix ++ base64.EncodeToString (encodeUtf16Le script).

(** ** Reference functions of the specification *)

(** The value of a character of the base64 alphabet (RFC 4648, table 1). *)
Definition b64_value (c : ascii) : option Z :=
  let n := byte_of_ascii c in
  if (65 <=? n) && (n <=? 90) then Some (n - 65)
  else if (97 <=? n) && (n <=? 122) then Some (n - 71)
  else if (48 <=? n) && (n <=? 57) then Some (n + 4)
  else if n =? 43 then Some 62
  else if n =? 47 then Some 63
  else None.

Definition is_pad (c : ascii) : bool := byte_of_ascii c =? 61.

(** [decode_b64]: the decoder of padded base64.  Four characters give the
    24 bits of three bytes; the last group may end in one or two padding
    characters and then gives two bytes or one.  Anything else is no
    encoding at all. *)
Fixpoint decode_b64 (s : string) : option (list Z) :=
  match s with
  | EmptyString => Some []
  | String c0 (String c1 (String c2 (String c3 rest))) =>
      match b64_value c0, b64_value c1 with
      | Some v0, Some v1 =>
          match b64_value c2, b64_value c3 with
          | Some v2, Some v3 =>
              let val := Z.lor (Z.lor (Z.lor (Z.shiftl v0 18) (Z.shiftl v1 12))
                                      (Z.shiftl v2 6)) v3 in
              match decode_b64 rest with
              | Some bs =>
                  Some (Z.land (Z.shiftr val 16) 255
                          :: Z.land (Z.shiftr val 8) 255
                          :: Z.land val 255 :: bs)
              | None => None
              end
          | Some v2, None =>
              if is_pad c3 && (String.length rest =? 0)%nat then
                let val := Z.lor (Z.lor (Z.shiftl v0 18) (Z.shiftl v1 12))
                                 (Z.shiftl v2 6) in
                Some [Z.land (Z.shiftr val 16) 255;
                      Z.land (Z.shiftr val 8) 255]
              else None
          | None, _ =>
              if is_pad c2 && is_pad c3 && (String.length rest =? 0)%nat then
                let val := Z.lor (Z.shiftl v0 18) (Z.shiftl v1 12) in
                Some [Z.land (Z.shiftr val 16) 255]
              else None
          end
      | _, _ => None
      end
  | _ => None
  end.

(** A printable ASCII string: every byte from the space to the tilde. *)
Definition printable (c : ascii) : bool :=
  (32 <=? byte_of_ascii c) && (byte_of_ascii c <=? 126).

Fixpoint printable_ascii (s : string) : bool :=
  match s with
  | EmptyString => true
  | String c s' => printable c && printable_ascii s'
  end.

(** [utf16le_bytes]: the UTF-16LE bytes of a printable ASCII text.  Every
    character is one 16-bit code unit, its code; a unit is laid out low
    byte first; nothing precedes the first unit. *)
Fixpoint utf16le_bytes (s : string) : list Z :=
  match s with
  | EmptyString => []
  | String c s' =>
      let u := byte_of_ascii c in
      u mod 256 :: u / 256 :: utf16le_bytes s'
  end.

(** ** The package-level functions *)

Section Provisioner.
Variable env : Env.
(** [p.config] *)
Variable config : Config.
(** the embedded [script] *)
Variable script : list Z.

(** *** uploadScript *)

(** The closure given to the retry loop; it assigns to [filePath]. *)
Definition uploadScript_attempt (filePath : string)
  : M (option error * string) :=
  r <- CreateTemp env ;;
  match r with
  | inl msg =>
      ret (Some (ErrorString
                   ("error preparing elevated shell script: " ++ msg)),
           filePath)
  | inr (tmpFile, name) =>
      let filePath := name in
      e <- WriteTo env tmpFile script ;;
      match e with
      | Some msg =>
          ret (Some (ErrorString
                       ("error writing content to temp file: " ++ msg)),
               filePath)
      | None =>
          e <- Close env tmpFile ;;
          match e with
          | Some msg =>
              ret (Some (ErrorString
                           ("error closing temp file: " ++ msg)),
                   filePath)
          | None => ret (None, filePath)
          end
      end
  end.

Definition upload_retry : retry.Config :=
  {| retry.StartTimeout := UploadTimeout config;
     retry.RetryDelay := Some (UploadRetryDelay config);
     retry.Tries := int_of_uint (UploadRetryAttempts config);
     retry.ShouldRetry := None |}.

Definition uploadScript (fuel : nat) : M (string * option error) :=
  Say "Creating/Uploading Windows Update script to specified target." ;;;
  if Z.of_nat (List.length script) =? 0
  then ret ("", Some (ErrorString
                        "contents within 'Invoke-WinUpdate.ps1' are empty"))
  else
    r <- retry.Run env upload_retry uploadScript_attempt fuel "" ;;
    let '(err, filePath) := r in
    ret (filePath, err).
End Provisioner.

Section Execute.
Variable env : Env.
Variable config : Config.

(** *** runWindowsUpdate *)

(** A [packer.RemoteCmd]: the command, the contents of the buffers behind
    [Stdout] and [Stderr], and what [ExitStatus()] returns. *)
Record RemoteCmd : Type := {
  Command : string;
  Stdout : list Z;
  Stderr : list Z;
  ExitStatus : Z
}.

(** [cmd.RunWithUi(ctx, comm, ui)]: the output of the command is
    appended to the two buffers; without error the exit status is set.
    (The copy of the output that the call also streams to the ui is not
    recorded.) *)
Definition RunWithUi (cmd : RemoteCmd) : M (option error * RemoteCmd) :=
  r <- comm_start env (Command cmd) ;;
  let out := (Stdout cmd ++ run_stdout r)%list in
  let err := (Stderr cmd ++ run_stderr r)%list in
  match run_status r with
  | inl msg =>
      ret (Some (ErrorString msg),
           {| Command := Command cmd; Stdout := out; Stderr := err;
              ExitStatus := ExitStatus cmd |})
  | inr status =>
      ret (None,
           {| Command := Command cmd; Stdout := out; Stderr := err;
              ExitStatus := status |})
  end.

(** The variables of [runWindowsUpdate] that its closure assigns to. *)
Record update_vars : Type := {
  scriptOutput : list Z;
  scriptErrors : list Z;
  exitStatus : Z
}.

(** The [switch] on the exit status: the error the attempt returns. *)
Definition classify (exitStatus : Z) : option error :=
  if exitStatus =? 0 then None
  else if exitStatus =? 101 then None
  else if exitStatus =? 2147942501 then None
  else Some (ErrorString
               ("Windows update script exited with non-zero exit status: "
                ++ fmt_d exitStatus)).

(** The closure given to the retry loop.  [cmd.Stdout] and [cmd.Stderr]
    point to [scriptOutput] and [scriptErrors], so what the command
    writes ends up in those two variables. *)
Definition runWindowsUpdate_attempt (command : string) (v : update_vars)
  : M (option error * update_vars) :=
  let cmd := {| Command := command; Stdout := scriptOutput v;
                Stderr := scriptErrors v; ExitStatus := 0 |} in
  r <- RunWithUi cmd ;;
  let '(err, cmd) := r in
  let v := {| scriptOutput := Stdout cmd; scriptErrors := Stderr cmd;
              exitStatus := exitStatus v |} in
  match err with
  | Some e => ret (Some e, v)
  | None =>
      let v := {| scriptOutput := scriptOutput v;
                  scriptErrors := scriptErrors v;
                  exitStatus := ExitStatus cmd |} in
      ret (classify (exitStatus v), v)
  end.

Definition update_retry : retry.Config :=
  {| retry.StartTimeout := UpdateTimeout config;
     retry.RetryDelay := None;
     retry.Tries := int_of_uint (UpdateRetryAttempts config);
     retry.ShouldRetry := None |}.

(** The retry statement of [runWindowsUpdate], with the variables it
    leaves behind. *)
Definition runWindowsUpdate_retry (fuel : nat) (command : string)
  : M (option error * update_vars) :=
  retry.Run env update_retry (runWindowsUpdate_attempt command) fuel
    {| scriptOutput := []; scriptErrors := []; exitStatus := 0 |}.

Definition runWindowsUpdate (fuel : nat) (script : string)
  : M (Z * option error) :=
  Say "Running Windows update..." ;;;
  if len script =? 0
  then ret (1, Some (ErrorString
                       "unable to run Windows Update script: file path is empty"))
  else
    let command := getWindowsUpdateCommand script in
    r <- runWindowsUpdate_retry fuel command ;;
    let '(err, v) := r in
    ret (exitStatus v, err).

(** *** Provision *)

(** the embedded [script] *)
Variable script : list Z.

Definition Provision (fuel : nat) : M (option error) :=
  Say "Starting Windows Update Provisioner." ;;;
  r <- uploadScript env config script fuel ;;
  let '(filePath, err) := r in
  match err with
  | Some e => ret (Some e)
  | None =>
      if len filePath =? 0
      then ret (Some (ErrorString
                        "expected file path to be populated after uploading the Windows Update script, but it was empty"))
      else
        Say ("Successfully created Windows Update script: " ++ filePath) ;;;
        r <- runWindowsUpdate fuel filePath ;;
        let '(statusCode, err) := r in
        match err with
        | Some e => ret (Some e)
        | None =>
            if negb (statusCode =? 0)
            then ret (Some (ErrorString
                              ("Windows Update script exited with non-zero exit status: "
                               ++ fmt_d statusCode)))
            else ret None
        end
  end.
End Execute.

(** ** Vocabulary of the statements *)

(** The error with which one attempt of [runWindowsUpdate] ends, given
    what the remote run did: the error of the call, or the verdict of the
    [switch] on the exit status. *)
Definition attempt_error (r : RemoteRun) : option error :=
  match run_status r with
  | inl msg => Some (ErrorString msg)
  | inr status => classify status
  end.

(** The exit codes whose attempt counts as a success. *)
Definition success_code (c : Z) : Prop := c = 0 \/ c = 101 \/ c = 2147942501.

(** The remote runs of [n] successive attempts, the first being the
    [a]-th command on the communicator. *)
Definition runs (env : Env) (command : string) (a n : nat) : list RemoteRun :=
  map (fun k => comm_Run env k command) (seq a n).

(** The exit codes observed by a sequence of runs, oldest first. *)
Definition observed (rs : list RemoteRun) : list Z :=
  flat_map (fun r => match run_status r with
                     | inr c => [c]
                     | inl _ => []
                     end) rs.

(** The value of [exitStatus] after a sequence of runs, from [d]. *)
Definition last_status (d : Z) (rs : list RemoteRun) : Z :=
  fold_left (fun acc r => match run_status r with
                          | inr c => c
                          | inl _ => acc
                          end) rs d.

(** The name that [filePath] holds after the [os.CreateTemp] calls number
    [t], ..., [t + n - 1], from [d]. *)
Definition last_created (env : Env) (d : string) (t n : nat) : string :=
  fold_left (fun acc k => match os_CreateTemp env k with
                          | inr name => name
                          | inl _ => acc
                          end) (seq t n) d.

Definition empty_script_error : error :=
  ErrorString "contents within 'Invoke-WinUpdate.ps1' are empty".

Definition empty_location_error : error :=
  ErrorString
    "expected file path to be populated after uploading the Windows Update script, but it was empty".

Definition exit_status_error (c : Z) : error :=
  ErrorString
    ("Windows update script exited with non-zero exit status: " ++ fmt_d c).

(** The errors a staging attempt can end with. *)
Definition staging_attempt_error (e : error) : Prop :=
  exists msg, e = ErrorString ("error " ++ msg).

(** ** Scenarios *)

(** A configuration with nothing specified, and what [Prepare] makes of it
    when the two retry counts are given. *)
Definition config0 : Config :=
  {| Username := ""; Password := ""; CategoryIDs := None; CabFiles := None;
     InstallAllUpdates := false; IncludeHiddenUpdates := false;
     InstallOptionalUpdates := false; InstallRecommendedUpdates := false;
     InstallImportantUpdates := false; UpdateTimeout := 0;
     UpdateRetryAttempts := 0; UploadRetryAttempts := 0;
     UploadRetryDelay := 0; UploadTimeout := 0; RestartTimeout := 0;
     DisableRestartAfterUpdates := false |}.

Definition config_tries (upload update : Z) : Config :=
  apply_defaults
    {| Username := ""; Password := ""; CategoryIDs := None; CabFiles := None;
       InstallAllUpdates := false; IncludeHiddenUpdates := false;
       InstallOptionalUpdates := false; InstallRecommendedUpdates := false;
       InstallImportantUpdates := false; UpdateTimeout := 0;
       UpdateRetryAttempts := update; UploadRetryAttempts := upload;
       UploadRetryDelay := 0; UploadTimeout := 0; RestartTimeout := 0;
       DisableRestartAfterUpdates := false |}.

(** The payload "Write-Output 1". *)
Definition payload1 : list Z :=
  [87; 114; 105; 116; 101; 45; 79; 117; 116; 112; 117; 116; 32; 49].

(** A temporary file whose path has spaces and quotes in it. *)
Definition temp_path : string :=
  "C:\Users\Build Agent\AppData\Local\Temp\" ++ String (ascii_of_nat 34)
    ("my dir" ++ String (ascii_of_nat 34) "\Invoke-WinUpdate3141592653.ps1").

(** An environment without cancellation or timeout, in which every
    temporary file gets the name [name], writes and closes end as given,
    and the k-th remote run is [run k]. *)
Definition env_of (name : string) (write : option (nat * string))
  (close : option string) (run : nat -> RemoteRun) : Env :=
  {| os_CreateTemp := fun _ => inr name;
     file_WriteTo := fun _ => write;
     file_Close := fun _ => close;
     comm_Run := fun k _ => run k;
     ctx_Done := fun _ => false;
     timer_Fired := fun _ => false |}.

Definition run_exit (out err : list Z) (status : Z) : RemoteRun :=
  {| run_stdout := out; run_stderr := err; run_status := inr status |}.

Definition run_broken (msg : string) : RemoteRun :=
  {| run_stdout := []; run_stderr := []; run_status := inl msg |}.

(** Every staging and every execution succeeds. *)
Definition env_of_success : Env :=
  env_of temp_path None None (fun _ => run_exit [] [] 0).

(** Every execution reports a pending restart. *)
Definition env_restart : Env :=
  env_of temp_path None None (fun _ => run_exit [] [] 101).

(** The first execution exits with 5, the second with 0. *)
Definition env_second_try : Env :=
  env_of temp_path None None
    (fun k => match k with
              | O => run_exit [111; 110; 101] [33] 5
              | _ => run_exit [116; 119; 111] [63] 0
              end).

(** Every execution exits with 5. *)
Definition env_exit5 : Env :=
  env_of temp_path None None (fun _ => run_exit [] [] 5).

(** The communicator cannot start any command. *)
Definition env_unreachable : Env :=
  env_of temp_path None None (fun _ => run_broken "connection refused").

(** The temporary file is created but cannot be written. *)
Definition env_disk_full : Env :=
  env_of temp_path (Some (3%nat, "no space left on device")) None
    (fun _ => run_exit [] [] 0).

(** [os.CreateTemp] hands back a file without a name. *)
Definition env_nameless : Env :=
  env_of "" None None (fun _ => run_exit [] [] 0).

(** The number of tries that [runWindowsUpdate] gives the retry loop. *)
Definition update_tries (config : Config) : Z :=
  int_of_uint (UpdateRetryAttempts config).

(** A value that fits a byte. *)
Definition in_byte (b : Z) : Prop := 0 <= b < 256.

(** The two bytes that [encodeUtf16Le] stores for one code unit. *)
Definition le_bytes (r : Z) : list Z := [byte r; byte (Z.shiftr r 8)].

(** ** Vocabulary of the further properties *)


(** The entries of a slice that a check refuses; none for a nil slice. *)
Definition refused (ok : string -> bool) (l : option (list string))
  : list string :=
  match l with
  | Some xs => filter (fun x => negb (ok x)) xs
  | None => []
  end.

(** The number of tries that [uploadScript] gives the retry loop. *)
Definition upload_tries (config : Config) : Z :=
  int_of_uint (UploadRetryAttempts config).

(** A character of the base64 alphabet, or the padding. *)
Definition b64_char (c : ascii) : bool :=
  match b64_value c with
  | Some _ => true
  | None => is_pad c
  end.

Fixpoint all_chars (p : ascii -> bool) (s : string) : bool :=
  match s with
  | EmptyString => true
  | String c s' => p c && all_chars p s'
  end.

(** A byte of the ASCII range. *)
Definition ascii_byte (c : ascii) : bool := byte_of_ascii c <? 128.

(** The first attempt exits with 5, the second cannot be started. *)
Definition env_lost_connection : Env :=
  env_of temp_path None None
    (fun k => match k with
              | O => run_exit [] [] 5
              | _ => run_broken "connection lost"
              end).

(** * Properties *)

(** ** The monad *)

Lemma bind_Some {A B} (m : M A) (k : A -> M B) w b w' :
  bind m k w = Some (b, w') ->
  exists a w1, m w = Some (a, w1) /\ k a w1 = Some (b, w').
Proof.
  unfold bind. destruct (m w) as [[a w1]|] eqn:E; [|discriminate].
  intros H. exists a, w1. split; [reflexivity|exact H].
Qed.

(** ** The retry loop *)

Section RetryFacts.
Variable env : Env.
Context {L : Type}.
Variable cfg : retry.Config.
Variable fn : L -> M (option error * L).

(** One turn of the loop. *)
Lemma loop_unfold fuel try err l w :
  retry.loop env cfg fn (S fuel) try err l w =
  if negb (retry.Tries cfg =? 0) && (try =? retry.Tries cfg)
  then Some (Some (RetryExhaustedError err), l, w)
  else
    match fn l w with
    | None => None
    | Some (None, l1, w1) => Some (None, l1, w1)
    | Some (Some e1, l1, w1) =>
        if negb (retry.shouldRetry cfg e1) then Some (Some e1, l1, w1)
        else if expired env (retry.StartTimeout cfg) (polls w1)
             then Some (Some e1, l1, polled w1)
             else retry.loop env cfg fn fuel (try + 1) (Some e1) l1
                    (asleep (retry.retryDelay cfg) (polled w1))
    end.
Proof.
  simpl.
  destruct (negb (retry.Tries cfg =? 0) && (try =? retry.Tries cfg));
    [reflexivity|].
  unfold bind.
  destruct (fn l w) as [[[[e1|] l1] w1]|]; try reflexivity.
  destruct (negb (retry.shouldRetry cfg e1)); [reflexivity|].
  unfold poll.
  destruct (expired env (retry.StartTimeout cfg) (polls w1)); reflexivity.
Qed.

(** A bounded loop over a closure that always returns does return, given
    fuel for one turn more than the attempts left. *)
Lemma loop_returns :
  (forall l w, fn l w <> None) ->
  0 < retry.Tries cfg ->
  forall fuel try err l w,
    0 <= try <= retry.Tries cfg ->
    (Z.to_nat (retry.Tries cfg - try) < fuel)%nat ->
    retry.loop env cfg fn fuel try err l w <> None.
Proof.
  intros Htot Hpos fuel.
  induction fuel as [|fuel IH]; intros try err l w Hb Hf; [lia|].
  rewrite loop_unfold.
  destruct (negb (retry.Tries cfg =? 0) && (try =? retry.Tries cfg)) eqn:Ex;
    [discriminate|].
  specialize (Htot l w).
  destruct (fn l w) as [[[[e1|] l1] w1]|]; try discriminate; [|congruence].
  destruct (negb (retry.shouldRetry cfg e1)); [discriminate|].
  destruct (expired env (retry.StartTimeout cfg) (polls w1));
    [discriminate|].
  assert (try <> retry.Tries cfg).
  { intros ->. rewrite Z.eqb_refl in Ex.
    destruct (retry.Tries cfg =? 0) eqn:E0; [lia|discriminate]. }
  apply IH; lia.
Qed.

(** Whatever every attempt, every [select] and every sleep preserve is
    preserved by the loop. *)
Lemma loop_invariant (I : L -> World -> Prop) :
  (forall l w r l' w', fn l w = Some (r, l', w') -> I l w -> I l' w') ->
  (forall l w, I l w -> I l (polled w)) ->
  (forall l w d, I l w -> I l (asleep d w)) ->
  forall fuel try err l w r l' w',
    retry.loop env cfg fn fuel try err l w = Some (r, l', w') ->
    I l w -> I l' w'.
Proof.
  intros Hfn Hpoll Hsleep fuel.
  induction fuel as [|fuel IH]; intros try err l w r l' w' H HI;
    [discriminate|].
  rewrite loop_unfold in H.
  destruct (negb (retry.Tries cfg =? 0) && (try =? retry.Tries cfg)).
  { inversion H; subst; exact HI. }
  destruct (fn l w) as [[[[e1|] l1] w1]|] eqn:Efn; try discriminate.
  - assert (I l1 w1) by (eapply Hfn; eauto).
    destruct (negb (retry.shouldRetry cfg e1)).
    { inversion H; subst; assumption. }
    destruct (expired env (retry.StartTimeout cfg) (polls w1)).
    { inversion H; subst; auto. }
    eapply IH; [exact H|]. auto.
  - inversion H; subst. eapply Hfn; eauto.
Qed.

(** An error of the loop is the wrapper of the retry package or the
    error of one of the attempts. *)
Lemma loop_error_origin (Q : error -> Prop) :
  (forall l w e l' w', fn l w = Some (Some e, l', w') -> Q e) ->
  (forall x, Q (RetryExhaustedError x)) ->
  forall fuel try err l w e l' w',
    retry.loop env cfg fn fuel try err l w = Some (Some e, l', w') -> Q e.
Proof.
  intros Hfn Hex fuel.
  induction fuel as [|fuel IH]; intros try err l w e l' w' H;
    [discriminate|].
  rewrite loop_unfold in H.
  destruct (negb (retry.Tries cfg =? 0) && (try =? retry.Tries cfg)).
  { inversion H; subst; apply Hex. }
  destruct (fn l w) as [[[[e1|] l1] w1]|] eqn:Efn; try discriminate.
  assert (Q e1) by (eapply Hfn; eauto).
  destruct (negb (retry.shouldRetry cfg e1)).
  { inversion H; subst; assumption. }
  destruct (expired env (retry.StartTimeout cfg) (polls w1)).
  { inversion H; subst; assumption. }
  eapply IH; exact H.
Qed.
End RetryFacts.

(** ** The attempts of runWindowsUpdate *)

Section UpdateFacts.
Variable env : Env.
Variable config : Config.
Variable command : string.

(** What one attempt does. *)
Lemma update_attempt_eq v w :
  runWindowsUpdate_attempt env command v w =
  let r := comm_Run env (List.length (started w)) command in
  Some (attempt_error r,
        {| scriptOutput := scriptOutput v ++ run_stdout r;
           scriptErrors := scriptErrors v ++ run_stderr r;
           exitStatus := match run_status r with
                         | inr c => c
                         | inl _ => exitStatus v
                         end |},
        starting command w).
Proof.
  unfold runWindowsUpdate_attempt, RunWithUi, comm_start, bind, ret,
    attempt_error. simpl.
  destruct (run_status (comm_Run env (List.length (started w)) command));
    reflexivity.
Qed.

Lemma runs_S a n :
  runs env command a (S n)
  = comm_Run env a command :: runs env command (S a) n.
Proof. reflexivity. Qed.

(** The trace of the retry statement: [n] attempts are made; all but the
    last fail and are followed by a [select] that lets the loop go on;
    the loop ends on a success, on a [select] that stops it, or with the
    attempts used up. *)
Lemma update_loop_trace fuel :
  forall try err v w r v' w',
    retry.loop env (update_retry config)
      (runWindowsUpdate_attempt env command) fuel try err v w
    = Some (r, v', w') ->
    exists n : nat,
      let a := List.length (started w) in
      let rs := runs env command a n in
      started w' = (started w ++ repeat command n)%list
      /\ said w' = said w /\ temps w' = temps w /\ files w' = files w
      /\ scriptOutput v'
         = (scriptOutput v ++ List.concat (map run_stdout rs))%list
      /\ scriptErrors v'
         = (scriptErrors v ++ List.concat (map run_stderr rs))%list
      /\ exitStatus v' = last_status (exitStatus v) rs
      /\ (forall k, (S k < n)%nat ->
            attempt_error (comm_Run env (a + k) command) <> None
            /\ expired env (UpdateTimeout config) (polls w + k) = false)
      /\ (0 < update_tries config -> try <= update_tries config ->
          try + Z.of_nat n <= update_tries config)
      /\ ((exists m, n = S m /\ r = None
                     /\ attempt_error (comm_Run env (a + m) command) = None
                     /\ polls w' = (polls w + m)%nat)
          \/ (exists m e, n = S m /\ r = Some e
                     /\ attempt_error (comm_Run env (a + m) command) = Some e
                     /\ expired env (UpdateTimeout config) (polls w + m) = true
                     /\ polls w' = (polls w + n)%nat)
          \/ (r = Some (RetryExhaustedError
                          (match n with
                           | O => err
                           | S m => attempt_error (comm_Run env (a + m) command)
                           end))
              /\ update_tries config <> 0
              /\ try + Z.of_nat n = update_tries config
              /\ (forall m, n = S m ->
                    attempt_error (comm_Run env (a + m) command) <> None
                    /\ expired env (UpdateTimeout config) (polls w + m) = false)
              /\ polls w' = (polls w + n)%nat)).
Proof.
  induction fuel as [|fuel IH]; intros try err v w r v' w' H;
    [discriminate|].
  rewrite loop_unfold in H.
  change (retry.Tries (update_retry config)) with (update_tries config) in H.
  destruct (negb (update_tries config =? 0) && (try =? update_tries config))
    eqn:Ex.
  { (* the attempts are used up *)
    inversion H; subst; clear H.
    apply andb_true_iff in Ex. destruct Ex as [E0 E1].
    apply negb_true_iff, Z.eqb_neq in E0. apply Z.eqb_eq in E1.
    exists 0%nat. simpl. rewrite !app_nil_r.
    repeat apply conj; try reflexivity; try (intros; lia).
    right; right.
    repeat apply conj; try reflexivity; try assumption;
      try (intros; lia); intros; discriminate. }
  assert (Hne : 0 < update_tries config -> try <= update_tries config ->
                try + 1 <= update_tries config).
  { intros Hpos Hle.
    assert (try <> (update_tries config)).
    { intros ->. rewrite Z.eqb_refl in Ex.
      destruct ((update_tries config) =? 0) eqn:E0; [lia|discriminate]. }
    lia. }
  rewrite update_attempt_eq in H. cbv zeta in H.
  set (a := List.length (started w)) in *.
  set (r0 := comm_Run env a command) in *.
  destruct (attempt_error r0) as [e1|] eqn:Eatt.
  2:{ (* the attempt succeeds *)
    inversion H; subst; clear H.
    exists 1%nat. simpl. fold r0. rewrite !app_nil_r.
    repeat apply conj; try reflexivity; try (intros; lia); try assumption.
    left. exists 0%nat. rewrite !Nat.add_0_r. fold r0. auto. }
  change (retry.shouldRetry (update_retry config) e1) with true in H.
  change (retry.StartTimeout (update_retry config))
    with (UpdateTimeout config) in H.
  cbn [negb] in H.
  change (polls (starting command w)) with (polls w) in H.
    destruct (expired env (UpdateTimeout config) (polls w)) eqn:Egone.
  { (* the select stops the loop *)
    inversion H; subst; clear H.
    exists 1%nat. simpl. fold r0. rewrite !app_nil_r.
    repeat apply conj; try reflexivity; try (intros; lia); try assumption.
    right; left. exists 0%nat, e1. rewrite !Nat.add_0_r. fold r0.
    repeat apply conj; auto; lia. }
  (* the loop goes on *)
  apply IH in H. destruct H as [n H]. cbv zeta in H.
  simpl in H.
  assert (La : List.length (started w ++ [command]) = S a)
    by (rewrite length_app; simpl; unfold a; lia).
  rewrite La in H.
  destruct H as (Hst & Hsaid & Htemps & Hfiles & Hout & Herr & Hexit
                 & Hmid & Hbound & Hend).
  exists (S n). cbv zeta. rewrite runs_S. fold r0.
  split. { rewrite Hst, <- app_assoc. reflexivity. }
  split; [assumption|]. split; [assumption|]. split; [assumption|].
  split. { rewrite Hout. simpl. rewrite <- app_assoc. reflexivity. }
  split. { rewrite Herr. simpl. rewrite <- app_assoc. reflexivity. }
  split. { rewrite Hexit. reflexivity. }
  assert (Hidx : forall k, (S a + k = a + S k)%nat) by (intros; lia).
  assert (Hpidx : forall k, (S (polls w + k) = polls w + S k)%nat)
    by (intros; lia).
  split.
  { intros [|k] Hk.
    - rewrite !Nat.add_0_r. fold r0. rewrite Eatt. split; [discriminate|auto].
    - destruct (Hmid k ltac:(lia)) as [Hm1 Hm2].
      rewrite Hidx in Hm1. rewrite Hpidx in Hm2. auto. }
  split. { intros Hpos Hle. specialize (Hne Hpos Hle).
           specialize (Hbound Hpos Hne). lia. }
  destruct Hend as [(m & -> & -> & Hlast & Hp)
                   |[(m & e & -> & -> & Hlast & Hg & Hp)
                    |(-> & HT & Htry & Hlast & Hp)]].
  - left. exists (S m). rewrite Hidx in Hlast.
    repeat split; auto; lia.
  - right; left. exists (S m), e. rewrite Hidx in Hlast.
    rewrite Hpidx in Hg. repeat split; auto; lia.
  - right; right. split.
    { destruct n as [|m]; [rewrite Nat.add_0_r; fold r0; rewrite Eatt|];
        [reflexivity|]. rewrite Hidx. reflexivity. }
    split; [assumption|]. split; [lia|]. split; [|lia].
    intros m Hm. injection Hm as <-.
    destruct n as [|m].
    + rewrite !Nat.add_0_r. fold r0. rewrite Eatt. split; [discriminate|auto].
    + destruct (Hlast m eq_refl) as [Hm1 Hm2].
      rewrite Hidx in Hm1. rewrite Hpidx in Hm2. auto.
Qed.
End UpdateFacts.

(** ** Exit codes *)

Lemma classify_success c : classify c = None <-> success_code c.
Proof.
  unfold classify, success_code.
  destruct (c =? 0) eqn:E0; [apply Z.eqb_eq in E0; tauto|].
  destruct (c =? 101) eqn:E1; [apply Z.eqb_eq in E1; tauto|].
  destruct (c =? 2147942501) eqn:E2; [apply Z.eqb_eq in E2; tauto|].
  apply Z.eqb_neq in E0, E1, E2.
  split; [discriminate|]. intros [H|[H|H]]; contradiction.
Qed.

Lemma classify_failure c :
  ~ success_code c -> classify c = Some (exit_status_error c).
Proof.
  unfold classify, success_code, exit_status_error. intros H.
  destruct (c =? 0) eqn:E0; [apply Z.eqb_eq in E0; tauto|].
  destruct (c =? 101) eqn:E1; [apply Z.eqb_eq in E1; tauto|].
  destruct (c =? 2147942501) eqn:E2; [apply Z.eqb_eq in E2; tauto|].
  reflexivity.
Qed.

Lemma success_code_dec c : success_code c \/ ~ success_code c.
Proof. unfold success_code. lia. Qed.

Lemma attempt_error_exit r c :
  run_status r = inr c -> attempt_error r = classify c.
Proof. unfold attempt_error. intros ->. reflexivity. Qed.

Lemma attempt_error_None r :
  attempt_error r = None <->
  exists c, run_status r = inr c /\ success_code c.
Proof.
  unfold attempt_error. destruct (run_status r) as [msg|c].
  - split; [discriminate|]. intros (c & H & _). discriminate.
  - rewrite classify_success. split.
    + intros H. exists c. auto.
    + intros (c' & H & Hs). injection H as ->. assumption.
Qed.

(** ** Sequences of runs *)

Lemma runs_snoc env command a n :
  runs env command a (S n)
  = (runs env command a n ++ [comm_Run env (a + n) command])%list.
Proof. unfold runs. rewrite seq_S, map_app. reflexivity. Qed.

Lemma last_cons {A} (l : list A) (x d : A) : last (x :: l) d = last l x.
Proof.
  revert x d. induction l as [|y l IH]; intros x d; [reflexivity|].
  change (last (x :: y :: l) d) with (last (y :: l) d).
  rewrite !IH. reflexivity.
Qed.

(** [exitStatus] holds the exit code observed last, and keeps its first
    value while none is observed. *)
Lemma last_status_observed rs :
  forall d, last_status d rs = last (observed rs) d.
Proof.
  induction rs as [|r rs IH]; intros d; [reflexivity|].
  unfold last_status, observed in *. simpl.
  destruct (run_status r) as [msg|c]; simpl.
  - apply IH.
  - rewrite IH. symmetry. apply last_cons.
Qed.

Lemma last_status_snoc d rs r :
  last_status d (rs ++ [r])
  = match run_status r with
    | inr c => c
    | inl _ => last_status d rs
    end.
Proof. unfold last_status. rewrite fold_left_app. reflexivity. Qed.

(** ** runWindowsUpdate as a whole *)

Section ExecuteFacts.
Variable env : Env.
Variable config : Config.

Lemma update_attempt_total command v w :
  runWindowsUpdate_attempt env command v w <> None.
Proof. rewrite update_attempt_eq. discriminate. Qed.

Lemma runWindowsUpdate_empty fuel script w :
  len script = 0 ->
  runWindowsUpdate env config fuel script w
  = Some (1, Some (ErrorString
                     "unable to run Windows Update script: file path is empty"),
          saying "Running Windows update..." w).
Proof.
  intros H. unfold runWindowsUpdate, bind, Say. rewrite H. reflexivity.
Qed.

Lemma runWindowsUpdate_nonempty fuel script w :
  len script <> 0 ->
  runWindowsUpdate env config fuel script w
  = match runWindowsUpdate_retry env config fuel
            (getWindowsUpdateCommand script)
            (saying "Running Windows update..." w) with
    | Some (err, v, w') => Some (exitStatus v, err, w')
    | None => None
    end.
Proof.
  intros H. unfold runWindowsUpdate, bind, Say.
  apply Z.eqb_neq in H. rewrite H.
  destruct (runWindowsUpdate_retry env config fuel
              (getWindowsUpdateCommand script)
              (saying "Running Windows update..." w))
    as [[[err v] w']|]; reflexivity.
Qed.

(** With a positive number of tries the retry statement returns. *)
Lemma runWindowsUpdate_retry_returns fuel command w :
  0 < int_of_uint (UpdateRetryAttempts config) ->
  (Z.to_nat (int_of_uint (UpdateRetryAttempts config)) < fuel)%nat ->
  runWindowsUpdate_retry env config fuel command w <> None.
Proof.
  intros Hpos Hfuel. unfold runWindowsUpdate_retry, retry.Run.
  apply loop_returns.
  - intros l w0. apply update_attempt_total.
  - exact Hpos.
  - simpl. lia.
  - simpl. rewrite Z.sub_0_r. exact Hfuel.
Qed.

(** The trace of a whole call for a path that is not empty. *)
Lemma runWindowsUpdate_trace fuel script w code err w' :
  len script <> 0 ->
  runWindowsUpdate env config fuel script w = Some (code, err, w') ->
  let command := getWindowsUpdateCommand script in
  let a := List.length (started w) in
  let T := int_of_uint (UpdateRetryAttempts config) in
  let gone := expired env (UpdateTimeout config) in
  exists m : nat,
    let rs := runs env command a (S m) in
    started w' = (started w ++ repeat command (S m))%list
    /\ code = last_status 0 rs
    /\ (forall k, (k < m)%nat ->
          attempt_error (comm_Run env (a + k) command) <> None
          /\ gone (polls w + k)%nat = false)
    /\ (0 < T -> Z.of_nat (S m) <= T)
    /\ (err = None <->
        attempt_error (comm_Run env (a + m) command) = None)
    /\ (forall e, err = Some e ->
          (attempt_error (comm_Run env (a + m) command) = Some e
           /\ gone (polls w + m)%nat = true)
          \/ (e = RetryExhaustedError
                    (attempt_error (comm_Run env (a + m) command))
              /\ attempt_error (comm_Run env (a + m) command) <> None
              /\ gone (polls w + m)%nat = false
              /\ Z.of_nat (S m) = T)).
Proof.
  intros Hlen H. rewrite runWindowsUpdate_nonempty in H by assumption.
  destruct (runWindowsUpdate_retry env config fuel
              (getWindowsUpdateCommand script)
              (saying "Running Windows update..." w))
    as [[[err0 v] w0]|] eqn:E; [|discriminate].
  injection H as <- <- <-.
  unfold runWindowsUpdate_retry, retry.Run in E.
  apply update_loop_trace in E. destruct E as [n E]. cbv zeta in E.
  unfold update_tries in E.
  change (started (saying "Running Windows update..." w))
    with (started w) in E.
  change (polls (saying "Running Windows update..." w))
    with (polls w) in E.
  cbn [scriptOutput scriptErrors exitStatus] in E.
  destruct E as (Hst & _ & _ & _ & _ & _ & Hexit & Hmid & Hbound & Hend).
  cbv zeta.
  destruct Hend as [(m & -> & -> & Hlast & Hp)
                   |[(m & e & -> & -> & Hlast & Hg & Hp)
                    |(-> & HT & Htry & Hlast & Hp)]].
  - exists m. repeat apply conj; try assumption.
    + intros k Hk. apply Hmid. lia.
    + intros Hpos. apply Hbound; lia.
    + intros _. assumption.
    + intros _. reflexivity.
    + intros e He. discriminate.
  - exists m. repeat apply conj; try assumption.
    + intros k Hk. apply Hmid. lia.
    + intros Hpos. apply Hbound; lia.
    + intros He. discriminate.
    + intros He. rewrite Hlast in He. discriminate.
    + intros e0 He. injection He as <-. left. auto.
  - destruct n as [|m]; [simpl in Htry; lia|].
    destruct (Hlast m eq_refl) as [Hl1 Hl2].
    exists m. repeat apply conj; try assumption.
    + intros k Hk. apply Hmid. lia.
    + intros Hpos. lia.
    + intros He. discriminate.
    + intros He. contradiction.
    + intros e0 He. injection He as <-. right.
      repeat apply conj; auto; lia.
Qed.
End ExecuteFacts.

(** ** The attempts of uploadScript *)

Section UploadFacts.
Variable env : Env.
Variable config : Config.
Variable script : list Z.

Lemma last_created_S d t n :
  last_created env d t (S n)
  = match os_CreateTemp env (t + n) with
    | inr name => name
    | inl _ => last_created env d t n
    end.
Proof.
  unfold last_created. rewrite seq_S, fold_left_app. reflexivity.
Qed.

Lemma set_last_content_snoc fs name c0 c :
  set_last_content (fs ++ [(name, c0)]) c = (fs ++ [(name, c)])%list.
Proof.
  unfold set_last_content. rewrite rev_unit, rev_involutive. reflexivity.
Qed.

(** What one attempt does: it talks to the local file system only, asks
    for one temporary file, and leaves in [filePath] the name of that
    file if it was created. *)
Lemma upload_attempt_spec filePath w :
  exists r w',
    uploadScript_attempt env script filePath w
    = Some (r,
            match os_CreateTemp env (temps w) with
            | inr name => name
            | inl _ => filePath
            end, w')
    /\ started w' = started w /\ said w' = said w
    /\ polls w' = polls w /\ slept w' = slept w
    /\ temps w' = S (temps w)
    /\ (forall e, r = Some e -> staging_attempt_error e)
    /\ (r = None ->
        exists name, os_CreateTemp env (temps w) = inr name
                     /\ files w' = (files w ++ [(name, script)])%list).
Proof.
  unfold uploadScript_attempt, bind, ret, CreateTemp, WriteTo, Close.
  destruct (os_CreateTemp env (temps w)) as [msg|name] eqn:Ec.
  - eexists _, _. split; [reflexivity|]. simpl.
    repeat apply conj; try reflexivity.
    + intros e He. injection He as <-.
      exists ("preparing elevated shell script: " ++ msg). reflexivity.
    + discriminate.
  - destruct (file_WriteTo env (temps w)) as [[k msg]|] eqn:Ew.
    + eexists _, _. split; [reflexivity|]. simpl.
      repeat apply conj; try reflexivity.
      * intros e He. injection He as <-.
        exists ("writing content to temp file: " ++ msg). reflexivity.
      * discriminate.
    + destruct (file_Close env (temps w)) as [msg|] eqn:Ecl.
      * eexists _, _. split; [reflexivity|]. simpl.
        repeat apply conj; try reflexivity.
        -- intros e He. injection He as <-.
           exists ("closing temp file: " ++ msg). reflexivity.
        -- discriminate.
      * eexists _, _. split; [reflexivity|]. simpl.
        repeat apply conj; try reflexivity.
        -- discriminate.
        -- intros _. exists name. split; [reflexivity|].
           apply set_last_content_snoc.
Qed.

Lemma upload_attempt_total filePath w :
  uploadScript_attempt env script filePath w <> None.
Proof.
  destruct (upload_attempt_spec filePath w) as (r & w' & H & _).
  rewrite H. discriminate.
Qed.

(** The retry statement of [uploadScript] starts no command, and leaves
    in [filePath] the name of the temporary file created last. *)
Lemma upload_loop_frame fuel try err filePath w r filePath' w' :
  retry.loop env (upload_retry config) (uploadScript_attempt env script)
    fuel try err filePath w = Some (r, filePath', w') ->
  started w' = started w
  /\ said w' = said w
  /\ exists n, temps w' = (temps w + n)%nat
               /\ filePath' = last_created env filePath (temps w) n.
Proof.
  intros H.
  pose (I := fun (l : string) (x : World) =>
               started x = started w /\ said x = said w
               /\ exists n, temps x = (temps w + n)%nat
                            /\ l = last_created env filePath (temps w) n).
  change (I filePath' w').
  eapply (loop_invariant env (upload_retry config)
            (uploadScript_attempt env script) I); [| | |exact H|].
  - intros l x r0 l' x' Hfn (Hs & Hsd & n & Ht & Hl).
    destruct (upload_attempt_spec l x)
      as (r1 & x1 & E & Hs1 & Hsd1 & _ & _ & Ht1 & _).
    rewrite E in Hfn. injection Hfn as <- <- <-.
    repeat apply conj; try congruence.
    exists (S n). split; [lia|].
    rewrite last_created_S, <- Ht, <- Hl. reflexivity.
  - intros l x H0. exact H0.
  - intros l x d H0. exact H0.
  - repeat apply conj; try reflexivity.
    exists 0%nat. split; [lia|reflexivity].
Qed.

(** An error of the retry statement of [uploadScript]. *)
Lemma upload_loop_error fuel try err filePath w e filePath' w' :
  retry.loop env (upload_retry config) (uploadScript_attempt env script)
    fuel try err filePath w = Some (Some e, filePath', w') ->
  (exists x, e = RetryExhaustedError x) \/ staging_attempt_error e.
Proof.
  apply (loop_error_origin env (upload_retry config)
           (uploadScript_attempt env script)
           (fun e => (exists x, e = RetryExhaustedError x)
                     \/ staging_attempt_error e)).
  - intros l x e0 l' x' Hfn. right.
    destruct (upload_attempt_spec l x)
      as (r1 & x1 & E & _ & _ & _ & _ & _ & He & _).
    rewrite E in Hfn. injection Hfn as H1 _ _.
    apply He. exact H1.
  - intros x. left. exists x. reflexivity.
Qed.

Lemma uploadScript_empty fuel w :
  script = [] ->
  uploadScript env config script fuel w
  = Some ("", Some empty_script_error,
          saying "Creating/Uploading Windows Update script to specified target." w).
Proof. intros ->. reflexivity. Qed.

Lemma uploadScript_nonempty fuel w :
  script <> [] ->
  uploadScript env config script fuel w
  = match retry.Run env (upload_retry config)
            (uploadScript_attempt env script) fuel ""
            (saying "Creating/Uploading Windows Update script to specified target." w)
    with
    | Some (err, filePath, w') => Some (filePath, err, w')
    | None => None
    end.
Proof.
  intros H. unfold uploadScript, bind, Say.
  replace (Z.of_nat (List.length script) =? 0) with false
    by (symmetry; apply Z.eqb_neq; destruct script;
        [contradiction|simpl List.length; lia]).
  destruct (retry.Run env (upload_retry config)
              (uploadScript_attempt env script) fuel ""
              (saying _ w)) as [[[err filePath] w']|]; reflexivity.
Qed.

(** [uploadScript] as a whole. *)
Lemma uploadScript_trace fuel w filePath err w' :
  uploadScript env config script fuel w = Some (filePath, err, w') ->
  started w' = started w
  /\ (exists n, temps w' = (temps w + n)%nat
                /\ filePath = last_created env "" (temps w) n
                /\ (script = [] -> n = 0%nat))
  /\ (forall e, err = Some e ->
        e = empty_script_error
        \/ (exists x, e = RetryExhaustedError x)
        \/ staging_attempt_error e).
Proof.
  intros H.
  assert (Hs : script = [] \/ script <> [])
    by (destruct script; [left|right]; congruence).
  destruct Hs as [Es|Es].
  - rewrite uploadScript_empty in H by assumption.
    injection H as <- <- <-.
    repeat apply conj; try reflexivity.
    + exists 0%nat. simpl. repeat apply conj; auto; lia.
    + intros e He. injection He as <-. left. reflexivity.
  - rewrite uploadScript_nonempty in H by assumption.
    unfold retry.Run in H.
    destruct (retry.loop env (upload_retry config)
                (uploadScript_attempt env script) fuel 0 None ""
                (saying _ w)) as [[[err0 fp] w0]|] eqn:E; [|discriminate].
    injection H as <- <- <-.
    pose proof (upload_loop_frame _ _ _ _ _ _ _ _ E) as (Hs & _ & n & Ht & Hl).
    repeat apply conj.
    + exact Hs.
    + exists n. repeat apply conj; auto. intros; contradiction.
    + intros e He. subst err0. right.
      eapply upload_loop_error. exact E.
Qed.
(** With a positive number of tries [uploadScript] returns. *)
Lemma uploadScript_returns fuel w :
  0 < int_of_uint (UploadRetryAttempts config) ->
  (Z.to_nat (int_of_uint (UploadRetryAttempts config)) < fuel)%nat ->
  uploadScript env config script fuel w <> None.
Proof.
  intros Hpos Hfuel.
  assert (Hs : script = [] \/ script <> [])
    by (destruct script; [left|right]; congruence).
  destruct Hs as [Es|Es].
  - rewrite uploadScript_empty by assumption. discriminate.
  - rewrite uploadScript_nonempty by assumption.
    pose proof (loop_returns env (upload_retry config)
                  (uploadScript_attempt env script)
                  upload_attempt_total Hpos fuel 0 None ""
                  (saying "Creating/Uploading Windows Update script to specified target." w)
                  ltac:(simpl; lia)
                  ltac:(simpl; rewrite Z.sub_0_r; exact Hfuel)) as Hret.
    unfold retry.Run.
    destruct (retry.loop env (upload_retry config)
                (uploadScript_attempt env script) fuel 0 None "" (saying _ w))
      as [[[err fp] w0]|]; [discriminate|contradiction].
Qed.
End UploadFacts.

(** ** Bits as arithmetic *)

Lemma land_shiftl_low k a b :
  0 <= k -> 0 <= b < 2 ^ k -> Z.land (Z.shiftl a k) b = 0.
Proof.
  intros Hk Hb. apply Z.bits_inj'. intros i Hi.
  rewrite Z.land_spec, Z.bits_0.
  destruct (Z.lt_ge_cases i k) as [Hlt|Hge].
  - rewrite Z.shiftl_spec_low by assumption. reflexivity.
  - replace (Z.testbit b i) with false; [apply andb_false_r|].
    symmetry. destruct (Z.eq_dec b 0) as [->|Hn]; [apply Z.bits_0|].
    apply Z.bits_above_log2; [lia|].
    apply Z.lt_le_trans with k; [|assumption].
    apply Z.log2_lt_pow2; lia.
Qed.

(** Or-ing bits below a multiple of [2 ^ k] adds them. *)
Lemma lor_add_low k x b :
  0 <= k -> x mod 2 ^ k = 0 -> 0 <= b < 2 ^ k -> Z.lor x b = x + b.
Proof.
  intros Hk Hx Hb.
  assert (E : x = Z.shiftl (x / 2 ^ k) k).
  { rewrite Z.shiftl_mul_pow2 by assumption.
    pose proof (Z.div_mod x (2 ^ k)). lia. }
  rewrite <- Z.lxor_lor, <- Z.add_nocarry_lxor; try reflexivity;
    rewrite E; apply land_shiftl_low; assumption.
Qed.

Lemma land_63 a : Z.land a 63 = a mod 64.
Proof. change 63 with (Z.ones 6). rewrite Z.land_ones by lia. reflexivity. Qed.

Lemma land_255 a : Z.land a 255 = a mod 256.
Proof. change 255 with (Z.ones 8). rewrite Z.land_ones by lia. reflexivity. Qed.

Ltac shifts_to_arith :=
  rewrite ?Z.shiftl_mul_pow2, ?Z.shiftr_div_pow2, ?land_63, ?land_255 by lia;
  change (2 ^ 6) with 64; change (2 ^ 8) with 256; change (2 ^ 12) with 4096;
  change (2 ^ 16) with 65536; change (2 ^ 18) with 262144.

Ltac by_div_mod := Z.div_mod_to_equations; lia.

(** The 24 bits [val] that [EncodeToString] builds from three bytes. *)
Lemma val_of_bytes s0 s1 s2 :
  in_byte s0 -> in_byte s1 -> in_byte s2 ->
  Z.lor (Z.lor (Z.shiftl s0 16) (Z.shiftl s1 8)) s2
  = s0 * 65536 + s1 * 256 + s2.
Proof.
  unfold in_byte. intros H0 H1 H2. shifts_to_arith.
  rewrite (lor_add_low 16 (s0 * 65536) (s1 * 256)); [|lia| |].
  - apply (lor_add_low 8); [lia| |lia]. change (2 ^ 8) with 256. by_div_mod.
  - change (2 ^ 16) with 65536. by_div_mod.
  - change (2 ^ 16) with 65536. lia.
Qed.

Lemma val_of_2_bytes s0 s1 :
  in_byte s0 -> in_byte s1 ->
  Z.lor (Z.shiftl s0 16) (Z.shiftl s1 8) = s0 * 65536 + s1 * 256.
Proof.
  intros H0 H1.
  pose proof (val_of_bytes s0 s1 0 H0 H1 ltac:(unfold in_byte; lia)) as H.
  rewrite Z.lor_0_r in H. lia.
Qed.

(** The 24 bits that [decode_b64] builds from four 6-bit values. *)
Lemma val_of_sextets v0 v1 v2 v3 :
  0 <= v0 < 64 -> 0 <= v1 < 64 -> 0 <= v2 < 64 -> 0 <= v3 < 64 ->
  Z.lor (Z.lor (Z.lor (Z.shiftl v0 18) (Z.shiftl v1 12)) (Z.shiftl v2 6)) v3
  = v0 * 262144 + v1 * 4096 + v2 * 64 + v3.
Proof.
  intros H0 H1 H2 H3. shifts_to_arith.
  rewrite (lor_add_low 18 (v0 * 262144) (v1 * 4096)); [|lia| |].
  - rewrite (lor_add_low 12 _ (v2 * 64)); [|lia| |].
    + apply (lor_add_low 6); [lia| |lia]. change (2 ^ 6) with 64. by_div_mod.
    + change (2 ^ 12) with 4096. by_div_mod.
    + change (2 ^ 12) with 4096. lia.
  - change (2 ^ 18) with 262144. by_div_mod.
  - change (2 ^ 18) with 262144. lia.
Qed.

Lemma val_of_3_sextets v0 v1 v2 :
  0 <= v0 < 64 -> 0 <= v1 < 64 -> 0 <= v2 < 64 ->
  Z.lor (Z.lor (Z.shiftl v0 18) (Z.shiftl v1 12)) (Z.shiftl v2 6)
  = v0 * 262144 + v1 * 4096 + v2 * 64.
Proof.
  intros H0 H1 H2.
  pose proof (val_of_sextets v0 v1 v2 0 H0 H1 H2 ltac:(lia)) as H.
  rewrite Z.lor_0_r in H. lia.
Qed.

Lemma val_of_2_sextets v0 v1 :
  0 <= v0 < 64 -> 0 <= v1 < 64 ->
  Z.lor (Z.shiftl v0 18) (Z.shiftl v1 12) = v0 * 262144 + v1 * 4096.
Proof.
  intros H0 H1.
  pose proof (val_of_3_sextets v0 v1 0 H0 H1 ltac:(lia)) as H.
  rewrite Z.shiftl_0_l, Z.lor_0_r in H. lia.
Qed.

Lemma sextet_range a : 0 <= Z.land a 63 < 64.
Proof. rewrite land_63. apply Z.mod_pos_bound. lia. Qed.

(** ** base64 *)

(** The decoder's table inverts the encoder's alphabet. *)
Lemma b64_value_encode i :
  0 <= i < 64 -> b64_value (base64.encode i) = Some i.
Proof.
  intros Hi.
  assert (H : forallb (fun n =>
                match b64_value (base64.encode (Z.of_nat n)) with
                | Some j => j =? Z.of_nat n
                | None => false
                end) (seq 0 64) = true) by (vm_compute; reflexivity).
  rewrite forallb_forall in H.
  specialize (H (Z.to_nat i)).
  rewrite Z2Nat.id in H by lia.
  assert (Hin : In (Z.to_nat i) (seq 0 64)) by (apply in_seq; lia).
  specialize (H Hin).
  destruct (b64_value (base64.encode i)) as [j|]; [|discriminate].
  apply Z.eqb_eq in H. congruence.
Qed.

Lemma decode_b64_full c0 c1 c2 c3 rest v0 v1 v2 v3 :
  b64_value c0 = Some v0 -> b64_value c1 = Some v1 ->
  b64_value c2 = Some v2 -> b64_value c3 = Some v3 ->
  decode_b64 (String c0 (String c1 (String c2 (String c3 rest))))
  = match decode_b64 rest with
    | Some bs =>
        let val := Z.lor (Z.lor (Z.lor (Z.shiftl v0 18) (Z.shiftl v1 12))
                                (Z.shiftl v2 6)) v3 in
        Some (Z.land (Z.shiftr val 16) 255
                :: Z.land (Z.shiftr val 8) 255 :: Z.land val 255 :: bs)
    | None => None
    end.
Proof.
  intros H0 H1 H2 H3. cbn [decode_b64]. rewrite H0, H1, H2, H3. reflexivity.
Qed.

Lemma decode_b64_pad1 c0 c1 c2 v0 v1 v2 :
  b64_value c0 = Some v0 -> b64_value c1 = Some v1 ->
  b64_value c2 = Some v2 ->
  decode_b64 (String c0 (String c1 (String c2
                (String base64.StdPadding EmptyString))))
  = let val := Z.lor (Z.lor (Z.shiftl v0 18) (Z.shiftl v1 12))
                     (Z.shiftl v2 6) in
    Some [Z.land (Z.shiftr val 16) 255; Z.land (Z.shiftr val 8) 255].
Proof.
  intros H0 H1 H2. cbn [decode_b64]. rewrite H0, H1, H2. reflexivity.
Qed.

Lemma decode_b64_pad2 c0 c1 v0 v1 :
  b64_value c0 = Some v0 -> b64_value c1 = Some v1 ->
  decode_b64 (String c0 (String c1 (String base64.StdPadding
                (String base64.StdPadding EmptyString))))
  = let val := Z.lor (Z.shiftl v0 18) (Z.shiftl v1 12) in
    Some [Z.land (Z.shiftr val 16) 255].
Proof.
  intros H0 H1. cbn [decode_b64]. rewrite H0, H1. reflexivity.
Qed.

(** Induction over a list, three elements at a time. *)
Lemma list_ind3 {A} (P : list A -> Prop) :
  P [] -> (forall a, P [a]) -> (forall a b, P [a; b]) ->
  (forall a b c l, P l -> P (a :: b :: c :: l)) ->
  forall l, P l.
Proof.
  intros H0 H1 H2 H3 l.
  assert (H : P l /\ (forall a, P (a :: l)) /\ (forall a b, P (a :: b :: l))).
  { induction l as [|x l (IH0 & IH1 & IH2)].
    - repeat apply conj; auto.
    - repeat apply conj; auto. }
  apply H.
Qed.

(** Decoding what [EncodeToString] produced gives the bytes back. *)
Lemma decode_b64_EncodeToString bs :
  Forall in_byte bs -> decode_b64 (base64.EncodeToString bs) = Some bs.
Proof.
  induction bs as [|s0|s0 s1|s0 s1 s2 rest IH] using list_ind3; intros Hb.
  - reflexivity.
  - inversion Hb as [|? ? H0 _]; subst.
    cbn [base64.EncodeToString]. cbv zeta.
    rewrite (decode_b64_pad2 _ _ _ _
               (b64_value_encode _ (sextet_range _))
               (b64_value_encode _ (sextet_range _))).
    cbv zeta. rewrite val_of_2_sextets by apply sextet_range.
    unfold in_byte in H0. shifts_to_arith. f_equal. f_equal. by_div_mod.
  - inversion Hb as [|? ? H0 Hb1]; subst.
    inversion Hb1 as [|? ? H1 _]; subst.
    cbn [base64.EncodeToString]. cbv zeta.
    rewrite (decode_b64_pad1 _ _ _ _ _ _
               (b64_value_encode _ (sextet_range _))
               (b64_value_encode _ (sextet_range _))
               (b64_value_encode _ (sextet_range _))).
    cbv zeta. rewrite val_of_3_sextets by apply sextet_range.
    rewrite val_of_2_bytes by assumption.
    unfold in_byte in H0, H1. shifts_to_arith.
    f_equal. f_equal; [|f_equal]; by_div_mod.
  - inversion Hb as [|? ? H0 Hb1]; subst.
    inversion Hb1 as [|? ? H1 Hb2]; subst.
    inversion Hb2 as [|? ? H2 Hb3]; subst.
    cbn [base64.EncodeToString]. cbv zeta.
    rewrite (decode_b64_full _ _ _ _ _ _ _ _ _
               (b64_value_encode _ (sextet_range _))
               (b64_value_encode _ (sextet_range _))
               (b64_value_encode _ (sextet_range _))
               (b64_value_encode _ (sextet_range _))).
    rewrite IH by assumption. cbv zeta.
    rewrite val_of_sextets by apply sextet_range.
    rewrite val_of_bytes by assumption.
    unfold in_byte in H0, H1, H2. shifts_to_arith.
    f_equal. f_equal; [|f_equal; [|f_equal]]; by_div_mod.
Qed.

(** ** encodeUtf16Le *)

Lemma store_middle pre x rest v :
  store (pre ++ x :: rest) (List.length pre) v = Some (pre ++ v :: rest)%list.
Proof.
  unfold store.
  replace (List.length pre <? List.length (pre ++ x :: rest))%nat with true
    by (symmetry; apply Nat.ltb_lt; rewrite length_app; simpl; lia).
  rewrite firstn_app, Nat.sub_diag, firstn_all. simpl firstn.
  rewrite app_nil_r.
  replace (S (List.length pre)) with (List.length pre + 1)%nat by lia.
  rewrite skipn_app, skipn_all2 by lia.
  replace (List.length pre + 1 - List.length pre)%nat with 1%nat by lia.
  reflexivity.
Qed.

(** The loop fills the zeroed slice from the left and never leaves it. *)
Lemma encodeUtf16Le_loop_fills d :
  forall i pre,
    List.length pre = (i * 2)%nat ->
    encodeUtf16Le_loop d i (pre ++ repeat 0 (List.length d * 2))
    = Some (pre ++ flat_map le_bytes d)%list.
Proof.
  induction d as [|r d IH]; intros i pre Hlen.
  - simpl. reflexivity.
  - cbn [encodeUtf16Le_loop]. simpl List.length. simpl repeat.
    rewrite <- Hlen, store_middle.
    replace (List.length pre + 1)%nat with (List.length (pre ++ [byte r]))
      by (rewrite length_app; reflexivity).
    replace (pre ++ byte r :: 0 :: repeat 0 (List.length d * 2))%list
      with ((pre ++ [byte r]) ++ 0 :: repeat 0 (List.length d * 2))%list
      by (rewrite <- app_assoc; reflexivity).
    rewrite store_middle.
    replace ((pre ++ [byte r]) ++ byte (Z.shiftr r 8)
               :: repeat 0 (List.length d * 2))%list
      with ((pre ++ le_bytes r) ++ repeat 0 (List.length d * 2))%list
      by (unfold le_bytes; rewrite <- !app_assoc; reflexivity).
    rewrite IH.
    + rewrite <- app_assoc. reflexivity.
    + rewrite length_app. unfold le_bytes. simpl. lia.
Qed.

(** [encodeUtf16Le] never indexes out of range, and lays every code unit
    out low byte first. *)
Lemma encodeUtf16Le_run_Some s :
  encodeUtf16Le_run s
  = Some (flat_map le_bytes (utf16.Encode (utf8.runes s))).
Proof.
  unfold encodeUtf16Le_run.
  apply (encodeUtf16Le_loop_fills _ 0%nat []). reflexivity.
Qed.

Lemma encodeUtf16Le_eq s :
  encodeUtf16Le s = flat_map le_bytes (utf16.Encode (utf8.runes s)).
Proof. unfold encodeUtf16Le. rewrite encodeUtf16Le_run_Some. reflexivity. Qed.

Lemma byte_in_byte v : in_byte (byte v).
Proof. unfold in_byte, byte. apply Z.mod_pos_bound. lia. Qed.

Lemma encodeUtf16Le_in_byte s : Forall in_byte (encodeUtf16Le s).
Proof.
  rewrite encodeUtf16Le_eq.
  induction (utf16.Encode (utf8.runes s)) as [|r d IH]; simpl.
  - constructor.
  - repeat constructor; try apply byte_in_byte. exact IH.
Qed.

Lemma printable_range c :
  printable c = true -> 32 <= byte_of_ascii c <= 126.
Proof. unfold printable. intros H. apply andb_true_iff in H. lia. Qed.

(** On printable ASCII the bytes are those of the specification. *)
Lemma encodeUtf16Le_printable s :
  printable_ascii s = true -> encodeUtf16Le s = utf16le_bytes s.
Proof.
  rewrite encodeUtf16Le_eq.
  induction s as [|c s IH]; intros Hp; [reflexivity|].
  simpl in Hp. apply andb_true_iff in Hp. destruct Hp as [Hc Hs].
  apply printable_range in Hc.
  cbn [utf8.runes utf16le_bytes]. cbv zeta.
  set (u := byte_of_ascii c) in *.
  assert (E1 : utf8.first u = Some (1, 0, 0)).
  { unfold utf8.first.
    replace (u <? 128) with true by (symmetry; apply Z.ltb_lt; lia).
    reflexivity. }
  rewrite E1. cbv beta iota. rewrite Z.eqb_refl.
  assert (E2 : utf16.units u = [u]).
  { unfold utf16.units, utf16.surr1.
    replace (0 <=? u) with true by (symmetry; apply Z.leb_le; lia).
    replace (u <? 55296) with true by (symmetry; apply Z.ltb_lt; lia).
    simpl. unfold uint16. rewrite Z.mod_small by lia. reflexivity. }
  unfold utf16.Encode in *. cbn [flat_map]. rewrite E2.
  cbn [app flat_map]. rewrite IH by assumption.
  unfold le_bytes, byte. simpl app. f_equal. f_equal.
  rewrite Z.shiftr_div_pow2 by lia. change (2 ^ 8) with 256.
  by_div_mod.
Qed.

(** Outside ASCII: U+00E9 from two bytes, U+1F600 from four bytes as a
    surrogate pair, and a byte that is no UTF-8 as U+FFFD. *)
Example encodeUtf16Le_beyond_ascii :
  encodeUtf16Le (String (ascii_of_nat 195) (String (ascii_of_nat 169) ""))
  = [233; 0]
  /\ encodeUtf16Le
       (String (ascii_of_nat 240) (String (ascii_of_nat 159)
          (String (ascii_of_nat 152) (String (ascii_of_nat 128) ""))))
     = [61; 216; 0; 222]
  /\ encodeUtf16Le (String (ascii_of_nat 255) "A") = [253; 255; 65; 0].
Proof. repeat apply conj; vm_compute; reflexivity. Qed.

(** The argument of [-EncodedCommand] decodes to the bytes of
    [encodeUtf16Le], whatever the path. *)
Lemma getWindowsUpdateCommand_decodes s :
  exists arg,
    getWindowsUpdateCommand s = command_prefix ++ arg
    /\ decode_b64 arg = Some (encodeUtf16Le s).
Proof.
  exists (base64.EncodeToString (encodeUtf16Le s)).
  split; [reflexivity|].
  apply decode_b64_EncodeToString, encodeUtf16Le_in_byte.
Qed.

(** * The claims *)

(** ** Prepare *)

(** C7 (the code differs).  For a configuration whose
    [update_retry_attempts] is unspecified (decoded value at most 0),
    [Prepare] sets the update retry attempts to [DefaultUpdateRetryAttempts],
    which is 5 and not the 3 that the comment of the field and
    [DefaultUpdateAttempts] give. *)
Theorem C7_Prepare_update_retry_default
  (abs_ok uuid_ok : string -> bool) (c before : Config) :
  UpdateRetryAttempts c <= 0 ->
  UpdateRetryAttempts (fst (Prepare abs_ok uuid_ok (inr c) before)) = 5
  /\ DefaultUpdateRetryAttempts = 5
  /\ DefaultUpdateAttempts = 3.
Proof.
  intros H. simpl.
  replace (UpdateRetryAttempts c <=? 0) with true
    by (symmetry; apply Z.leb_le; exact H).
  repeat apply conj; reflexivity.
Qed.

Lemma C7_witness :
  UpdateRetryAttempts
    (fst (Prepare (fun _ => true) (fun _ => true) (inr config0) config0)) = 5
  /\ DefaultUpdateRetryAttempts = 5
  /\ DefaultUpdateAttempts = 3.
Proof.
  apply (C7_Prepare_update_retry_default
           (fun _ => true) (fun _ => true) config0 config0).
  simpl. lia.
Defined.

(** ** The empty payload *)

(** C5.  With an empty embedded script [uploadScript] returns at once, with
    the error of the empty script and the empty path: no temporary file is
    asked for (no staging attempt), the retry loop is not entered (no
    [select], no sleep), and no command is started; [Provision] returns
    that error, again without any remote call.  No fuel is needed. *)
Theorem C5_empty_script_fails_at_once
  (env : Env) (config : Config) (fuel : nat) (w : World) :
  (exists w',
     uploadScript env config [] fuel w = Some ("", Some empty_script_error, w')
     /\ temps w' = temps w /\ files w' = files w
     /\ polls w' = polls w /\ slept w' = slept w
     /\ started w' = started w)
  /\ (exists w',
        Provision env config [] fuel w = Some (Some empty_script_error, w')
        /\ temps w' = temps w /\ files w' = files w
        /\ polls w' = polls w /\ slept w' = slept w
        /\ started w' = started w).
Proof.
  split.
  - eexists. split; [apply uploadScript_empty; reflexivity|].
    repeat apply conj; reflexivity.
  - eexists. split.
    + unfold Provision, bind, Say.
      rewrite uploadScript_empty by reflexivity. reflexivity.
    + repeat apply conj; reflexivity.
Qed.

(** After [Prepare] the number of update tries is positive, for every
    decoded count that [int] keeps as it is. *)
Lemma prepared_update_tries_positive (c : Config) :
  0 <= UpdateRetryAttempts c < 2 ^ 63 ->
  0 < int_of_uint (UpdateRetryAttempts (apply_defaults c)).
Proof.
  intros H. unfold apply_defaults, int_of_uint. cbn [UpdateRetryAttempts].
  destruct (UpdateRetryAttempts c <=? 0) eqn:E.
  - reflexivity.
  - apply Z.leb_gt in E.
    replace (UpdateRetryAttempts c <? 2 ^ 63) with true
      by (symmetry; apply Z.ltb_lt; lia).
    exact E.
Qed.

(** Without [Prepare] the count of tries is 0 and puts no bound on the
    loop: when every attempt exits with 5 the call does not return,
    whatever the fuel. *)
Lemma unprepared_update_loop_goes_on command fuel :
  forall try err v w,
    retry.loop env_exit5 (update_retry config0)
      (runWindowsUpdate_attempt env_exit5 command) fuel try err v w = None.
Proof.
  induction fuel as [|fuel IH]; intros try err v w; [reflexivity|].
  rewrite loop_unfold, update_attempt_eq. cbv zeta. apply IH.
Qed.

(** ** Provision *)

Section ProvisionFacts.
Variable env : Env.
Variable config : Config.
Variable script : list Z.

(** A loop that ends without error ends with an attempt without error. *)
Lemma loop_success_origin {L} (cfg : retry.Config)
  (fn : L -> M (option error * L)) fuel :
  forall try err l w l' w',
    retry.loop env cfg fn fuel try err l w = Some (None, l', w') ->
    exists l0 w0, fn l0 w0 = Some (None, l', w').
Proof.
  induction fuel as [|fuel IH]; intros try err l w l' w' H; [discriminate|].
  rewrite loop_unfold in H.
  destruct (negb (retry.Tries cfg =? 0) && (try =? retry.Tries cfg));
    [discriminate|].
  destruct (fn l w) as [[[[e1|] l1] w1]|] eqn:Efn; try discriminate.
  - destruct (negb (retry.shouldRetry cfg e1)); [discriminate|].
    destruct (expired env (retry.StartTimeout cfg) (polls w1));
      [discriminate|].
    eapply IH; exact H.
  - inversion H; subst. exists l, w. exact Efn.
Qed.

(** A staging that succeeds leaves the whole payload in the file it names. *)
Lemma uploadScript_stores fuel w filePath w' :
  uploadScript env config script fuel w = Some (filePath, None, w') ->
  exists fs, files w' = (fs ++ [(filePath, script)])%list.
Proof.
  intros H.
  assert (Hs : script = [] \/ script <> [])
    by (destruct script; [left|right]; congruence).
  destruct Hs as [Es|Es].
  - rewrite uploadScript_empty in H by assumption. discriminate.
  - rewrite uploadScript_nonempty in H by assumption.
    unfold retry.Run in H.
    destruct (retry.loop env (upload_retry config)
                (uploadScript_attempt env script) fuel 0 None "" (saying _ w))
      as [[[err0 fp] w0]|] eqn:E; [|discriminate].
    injection H as Hfp0 Herr0 Hw0. subst fp err0 w0.
    apply loop_success_origin in E. destruct E as (l0 & x0 & E).
    destruct (upload_attempt_spec env script l0 x0)
      as (r1 & x1 & E1 & _ & _ & _ & _ & _ & _ & Hok).
    rewrite E1 in E. injection E as -> Hfp ->.
    destruct (Hok eq_refl) as (name & Hname & Hfiles).
    rewrite Hname in Hfp. subst filePath. exists (files x0). exact Hfiles.
Qed.

Lemma last_created_origin t n name :
  last_created env "" t n = name -> name <> "" ->
  exists k, (t <= k < t + n)%nat /\ os_CreateTemp env k = inr name.
Proof.
  revert name. induction n as [|n IH]; intros name H Hne.
  - unfold last_created in H. simpl in H. congruence.
  - rewrite last_created_S in H.
    destruct (os_CreateTemp env (t + n)) as [msg|nm] eqn:E.
    + destruct (IH name H Hne) as (k & Hk & Ek).
      exists k. split; [lia|exact Ek].
    + subst nm. exists (t + n)%nat. split; [lia|exact E].
Qed.

(** [Provision], statement by statement. *)
Lemma Provision_eq fuel w :
  Provision env config script fuel w =
  match uploadScript env config script fuel
          (saying "Starting Windows Update Provisioner." w) with
  | None => None
  | Some (filePath, Some e, w1) => Some (Some e, w1)
  | Some (filePath, None, w1) =>
      if len filePath =? 0 then Some (Some empty_location_error, w1)
      else
        match runWindowsUpdate env config fuel filePath
                (saying ("Successfully created Windows Update script: "
                         ++ filePath) w1) with
        | None => None
        | Some (statusCode, Some e, w2) => Some (Some e, w2)
        | Some (statusCode, None, w2) =>
            Some (if statusCode =? 0 then None
                  else Some (ErrorString
                               ("Windows Update script exited with non-zero exit status: "
                                ++ fmt_d statusCode)),
                  w2)
        end
  end.
Proof.
  unfold Provision, bind, Say.
  destruct (uploadScript env config script fuel (saying _ w))
    as [[[filePath [e|]] w1]|]; try reflexivity.
  destruct (len filePath =? 0); [reflexivity|].
  destruct (runWindowsUpdate env config fuel filePath (saying _ w1))
    as [[[statusCode [e|]] w2]|]; try reflexivity.
  destruct (statusCode =? 0); reflexivity.
Qed.

(** An exit status returned without error is one of the three codes of
    success. *)
Lemma runWindowsUpdate_nil_error fuel filePath w code w' :
  len filePath <> 0 ->
  runWindowsUpdate env config fuel filePath w = Some (code, None, w') ->
  success_code code.
Proof.
  intros Hlen H.
  destruct (runWindowsUpdate_trace env config _ _ _ _ _ _ Hlen H)
    as (m & _ & Hcode & _ & _ & Hnil & _).
  cbv zeta in *.
  destruct Hnil as [Hnil _]. specialize (Hnil eq_refl).
  apply attempt_error_None in Hnil. destruct Hnil as (c & Hst & Hc).
  rewrite runs_snoc, last_status_snoc, Hst in Hcode.
  subst code. exact Hc.
Qed.
End ProvisionFacts.

(** Scenario A of the specification: staging and execution succeed at the
    first attempt. *)
Example scenario_A :
  exists w',
    Provision env_of_success (config_tries 0 0) payload1 6 world0
    = Some (None, w')
    /\ files w' = [(temp_path, payload1)]
    /\ started w' = [getWindowsUpdateCommand temp_path].
Proof. eexists. repeat apply conj; lazy; reflexivity. Qed.

(** Scenario C: exit code 5 on each of three tries. *)
Example scenario_C :
  exists w',
    runWindowsUpdate env_exit5 (config_tries 0 3) 4 temp_path world0
    = Some (5, Some (RetryExhaustedError (Some (exit_status_error 5))), w')
    /\ List.length (started w') = 3%nat.
Proof. eexists. split; lazy; reflexivity. Qed.

(** C1 (the code differs).  When staging succeeds with a location and
    [runWindowsUpdate] returns an exit code without error, the code is one of
    0, 101 and 2147942501, and [Provision] returns nil only for 0: for 101
    and 2147942501, which [runWindowsUpdate] has just classified as success,
    it returns the error of a non-zero exit status. *)
Theorem C1_Provision_fails_on_restart_pending
  (env : Env) (config : Config) (script : list Z) (fuel : nat)
  (w w1 w2 : World) (filePath : string) (code : Z) :
  uploadScript env config script fuel
    (saying "Starting Windows Update Provisioner." w)
  = Some (filePath, None, w1) ->
  len filePath <> 0 ->
  runWindowsUpdate env config fuel filePath
    (saying ("Successfully created Windows Update script: " ++ filePath) w1)
  = Some (code, None, w2) ->
  success_code code
  /\ Provision env config script fuel w
     = Some (if code =? 0 then None
             else Some (ErrorString
                          ("Windows Update script exited with non-zero exit status: "
                           ++ fmt_d code)),
             w2).
Proof.
  intros Hup Hlen Hrun. split.
  - eapply runWindowsUpdate_nil_error; eassumption.
  - rewrite Provision_eq, Hup.
    apply Z.eqb_neq in Hlen. rewrite Hlen, Hrun. reflexivity.
Qed.

(** Scenario B: every execution exits with 101.  One command is started,
    [runWindowsUpdate] returns 101 without error, and [Provision] returns
    an error. *)
Lemma C1_witness :
  exists w2,
    (success_code 101
     /\ Provision env_restart (config_tries 0 0) payload1 6 world0
        = Some (Some (ErrorString
                        "Windows Update script exited with non-zero exit status: 101"),
                w2))
    /\ started w2 = [getWindowsUpdateCommand temp_path].
Proof.
  eexists. split.
  - eapply (C1_Provision_fails_on_restart_pending
              env_restart (config_tries 0 0) payload1 6 world0 _ _
              temp_path 101).
    + lazy. reflexivity.
    + vm_compute. discriminate.
    + lazy. reflexivity.
  - lazy. reflexivity.
Defined.

(** C6.  With a positive number of upload tries staging returns (given
    fuel for one turn more), and whatever it returns, [Provision] runs
    [runWindowsUpdate] only on a location that is not empty: a staging
    error is returned as it is and differs from the error of the empty
    location; a staging without error but with an empty location makes
    [Provision] return the error of the empty location, in the very world
    staging left (nothing is said, nothing is started); and whenever
    [Provision] does anything after staging, that is a run of
    [runWindowsUpdate] on a non-empty location. *)
Theorem C6_no_execution_without_location
  (env : Env) (config : Config) (script : list Z) (fuel : nat) (w : World) :
  (0 < int_of_uint (UploadRetryAttempts config) ->
   (Z.to_nat (int_of_uint (UploadRetryAttempts config)) < fuel)%nat ->
   uploadScript env config script fuel
     (saying "Starting Windows Update Provisioner." w) <> None)
  /\ forall filePath err w1,
       uploadScript env config script fuel
         (saying "Starting Windows Update Provisioner." w)
       = Some (filePath, err, w1) ->
       started w1 = started w
       /\ (forall e, err = Some e ->
             e <> empty_location_error
             /\ Provision env config script fuel w = Some (Some e, w1))
       /\ (err = None -> len filePath = 0 ->
             Provision env config script fuel w
             = Some (Some empty_location_error, w1))
       /\ (forall r w', Provision env config script fuel w = Some (r, w') ->
             w' <> w1 ->
             err = None /\ len filePath <> 0
             /\ exists code err2,
                  runWindowsUpdate env config fuel filePath
                    (saying ("Successfully created Windows Update script: "
                             ++ filePath) w1)
                  = Some (code, err2, w')).
Proof.
  split; [apply uploadScript_returns|].
  intros filePath err w1 Hup.
  pose proof (uploadScript_trace env config script _ _ _ _ _ Hup)
    as (Hst & _ & Herr).
  repeat apply conj.
  - exact Hst.
  - intros e He. subst err. split.
    + destruct (Herr e eq_refl) as [->|[[x ->]|[msg ->]]];
        unfold empty_location_error, empty_script_error; simpl; discriminate.
    + rewrite Provision_eq, Hup. reflexivity.
  - intros -> Hlen. rewrite Provision_eq, Hup, Hlen. reflexivity.
  - intros r w' Hp Hne. rewrite Provision_eq, Hup in Hp.
    destruct err as [e|].
    { injection Hp as _ Hw. congruence. }
    destruct (len filePath =? 0) eqn:Hlen.
    { injection Hp as _ Hw. congruence. }
    apply Z.eqb_neq in Hlen. repeat apply conj; [reflexivity|exact Hlen|].
    destruct (runWindowsUpdate env config fuel filePath (saying _ w1))
      as [[[code err2] w2]|]; [|discriminate].
    exists code, err2.
    destruct err2 as [e|]; injection Hp as _ Hw; subst w2; reflexivity.
Qed.

(** A temporary file without a name: staging returns no error and an empty
    location, and [Provision] stops with the error of the empty location
    before any command is started. *)
Lemma C6_witness :
  exists w1,
    Provision env_nameless (config_tries 0 0) payload1 6 world0
    = Some (Some empty_location_error, w1)
    /\ started w1 = [].
Proof.
  eexists. split.
  - refine (proj1 (proj2 (proj2
      (proj2 (C6_no_execution_without_location
                env_nameless (config_tries 0 0) payload1 6 world0)
         "" None _ _)))
      eq_refl eq_refl).
    lazy. reflexivity.
  - lazy. reflexivity.
Defined.

(** C8 (amended).  When [uploadScript] returns an error, the location it
    returns is the value [filePath] was left with: empty for an empty
    script or when no [os.CreateTemp] of the call succeeded, else the name
    of the temporary file created last, even though its write or close
    failed.  No command is started, and [Provision] returns the error
    without using the location. *)
Theorem C8_location_on_staging_error
  (env : Env) (config : Config) (script : list Z) (fuel : nat)
  (w w' : World) (filePath : string) (e : error) :
  uploadScript env config script fuel w = Some (filePath, Some e, w') ->
  started w' = started w
  /\ (exists n, temps w' = (temps w + n)%nat
                /\ filePath = last_created env "" (temps w) n)
  /\ (script = [] -> filePath = "")
  /\ (filePath <> "" ->
        exists k, (temps w <= k < temps w')%nat
                  /\ os_CreateTemp env k = inr filePath)
  /\ (forall w0, w = saying "Starting Windows Update Provisioner." w0 ->
        Provision env config script fuel w0 = Some (Some e, w')).
Proof.
  intros Hup.
  pose proof (uploadScript_trace env config script _ _ _ _ _ Hup)
    as (Hst & (n & Ht & Hfp & Hn) & _).
  repeat apply conj.
  - exact Hst.
  - exists n. split; assumption.
  - intros Hs. rewrite (Hn Hs) in Hfp. exact Hfp.
  - intros Hne. symmetry in Hfp.
    destruct (last_created_origin env _ _ _ Hfp Hne) as (k & Hk & Ek).
    exists k. split; [lia|exact Ek].
  - intros w0 ->. rewrite Provision_eq, Hup. reflexivity.
Qed.

Lemma C8_witness :
  exists w',
    started w' = started world0
    /\ (exists n, temps w' = (temps world0 + n)%nat
                  /\ temp_path
                     = last_created env_disk_full "" (temps world0) n)
    /\ (payload1 = [] -> temp_path = "")
    /\ (temp_path <> "" ->
          exists k, (temps world0 <= k < temps w')%nat
                    /\ os_CreateTemp env_disk_full k = inr temp_path)
    /\ (forall w0,
          world0 = saying "Starting Windows Update Provisioner." w0 ->
          Provision env_disk_full (config_tries 2 1) payload1 6 w0
          = Some (Some (RetryExhaustedError
                          (Some (ErrorString
                                   "error writing content to temp file: no space left on device"))),
                  w')).
Proof.
  eexists.
  eapply (C8_location_on_staging_error
            env_disk_full (config_tries 2 1) payload1 6 world0 _ temp_path).
  lazy. reflexivity.
Defined.

(** C8 as stated fails: the disk is full, both attempts create their
    temporary file and fail to write it, and [uploadScript] returns the
    error together with the name of the second file, not an empty
    location. *)
Lemma C8_counterexample :
  exists e w',
    uploadScript env_disk_full (config_tries 2 1) payload1 6 world0
    = Some (temp_path, Some e, w')
    /\ temp_path <> ""
    /\ files w' = [(temp_path, [87; 114; 105]); (temp_path, [87; 114; 105])].
Proof.
  eexists. eexists. split; [lazy; reflexivity|].
  split; [lazy; discriminate|lazy; reflexivity].
Qed.

(** C9.  [uploadScript] returns (for a positive number of tries and fuel
    for one turn more) and starts no command on the communicator, whatever
    the payload; when it succeeds the payload is the content of the local
    file it names.  [runWindowsUpdate], which is given the path and not the
    payload, touches no local file, and every command it starts is
    [getWindowsUpdateCommand] of that path. *)
Theorem C9_payload_stays_local
  (env : Env) (config : Config) (script : list Z) (fuel : nat) (w : World) :
  (0 < int_of_uint (UploadRetryAttempts config) ->
   (Z.to_nat (int_of_uint (UploadRetryAttempts config)) < fuel)%nat ->
   uploadScript env config script fuel w <> None)
  /\ (forall filePath err w1,
        uploadScript env config script fuel w = Some (filePath, err, w1) ->
        started w1 = started w
        /\ (err = None ->
            exists fs, files w1 = (fs ++ [(filePath, script)])%list))
  /\ (forall filePath r w2,
        runWindowsUpdate env config fuel filePath w = Some (r, w2) ->
        files w2 = files w /\ temps w2 = temps w
        /\ exists n,
             started w2
             = (started w
                ++ repeat (getWindowsUpdateCommand filePath) n)%list).
Proof.
  split; [apply uploadScript_returns|]. split.
  - intros filePath err w1 Hup.
    pose proof (uploadScript_trace env config script _ _ _ _ _ Hup)
      as (Hst & _ & _).
    split; [exact Hst|].
    intros ->. eapply uploadScript_stores. exact Hup.
  - intros filePath r w2 Hrun.
    destruct (Z.eq_dec (len filePath) 0) as [Hlen|Hlen].
    + rewrite runWindowsUpdate_empty in Hrun by assumption.
      injection Hrun as _ <-. repeat apply conj; try reflexivity.
      exists 0%nat. simpl. rewrite app_nil_r. reflexivity.
    + destruct r as [code err2].
      rewrite runWindowsUpdate_nonempty in Hrun by assumption.
      destruct (runWindowsUpdate_retry env config fuel
                  (getWindowsUpdateCommand filePath) (saying _ w))
        as [[[err0 v] w0]|] eqn:E; [|discriminate].
      injection Hrun as _ _ <-.
      unfold runWindowsUpdate_retry, retry.Run in E.
      apply update_loop_trace in E. destruct E as [n E]. cbv zeta in E.
      destruct E as (Hs & _ & Htemps & Hfiles & _).
      repeat apply conj; try assumption.
      exists n. exact Hs.
Qed.

(** Staging the payload "Write-Output 1" starts nothing and leaves the
    payload in the local file. *)
Lemma C9_witness :
  exists w1,
    started w1 = started world0
    /\ (@None error = None ->
        exists fs, files w1 = (fs ++ [(temp_path, payload1)])%list).
Proof.
  eexists.
  refine (proj1 (proj2 (C9_payload_stays_local
                          env_second_try (config_tries 0 0) payload1 6 world0))
            temp_path None _ _).
  lazy. reflexivity.
Defined.

(** ** runWindowsUpdate *)

(** C2.  For a path that is not empty and a positive number [T] of tries:
    [runWindowsUpdate] returns (given fuel for [T] + 1 turns); it makes at
    least one and at most [T] attempts, each starting the same command; an
    attempt that observes 0, 101 or 2147942501 is the last one, and the call
    returns that code without error; an attempt that observes any other
    code fails, and either another attempt follows or the call returns
    that code with the error of the exit status, bare or wrapped by the
    retry package; and an error is returned only after [T] attempts or
    when the context or the timeout stops the loop. *)
Theorem C2_retry_until_success_or_exhausted
  (env : Env) (config : Config) (fuel : nat) (script : string) (w : World) :
  len script <> 0 ->
  0 < int_of_uint (UpdateRetryAttempts config) ->
  let T := int_of_uint (UpdateRetryAttempts config) in
  let command := getWindowsUpdateCommand script in
  let a := List.length (started w) in
  ((Z.to_nat T < fuel)%nat ->
   runWindowsUpdate env config fuel script w <> None)
  /\ forall code err w',
       runWindowsUpdate env config fuel script w = Some (code, err, w') ->
       exists m : nat,
         started w' = (started w ++ repeat command (S m))%list
         /\ Z.of_nat (S m) <= T
         /\ (forall k c,
               (k <= m)%nat ->
               run_status (comm_Run env (a + k) command) = inr c ->
               (success_code c -> k = m /\ code = c /\ err = None)
               /\ (~ success_code c ->
                   (k < m)%nat
                   \/ (k = m /\ code = c
                       /\ (err = Some (exit_status_error c)
                           \/ err = Some (RetryExhaustedError
                                            (Some (exit_status_error c)))))))
         /\ (err <> None ->
             Z.of_nat (S m) = T
             \/ expired env (UpdateTimeout config) (polls w + m) = true).
Proof.
  intros Hlen Hpos T command a. split.
  - intros Hfuel. rewrite runWindowsUpdate_nonempty by assumption.
    pose proof (runWindowsUpdate_retry_returns env config fuel command
                  (saying "Running Windows update..." w) Hpos Hfuel) as Hret.
    fold command.
    destruct (runWindowsUpdate_retry env config fuel command (saying _ w))
      as [[[err v] w']|]; [discriminate|contradiction].
  - intros code err w' H.
    destruct (runWindowsUpdate_trace env config _ _ _ _ _ _ Hlen H)
      as (m & Hst & Hcode & Hmid & Hbound & Hnil & Herr).
    cbv zeta in *. fold command a T in Hst, Hcode, Hmid, Hbound, Hnil, Herr.
    exists m. repeat apply conj.
    + exact Hst.
    + apply Hbound. exact Hpos.
    + intros k c Hk Hstat.
      pose proof (attempt_error_exit _ _ Hstat) as Hatt.
      assert (Hlast : k = m -> code = c).
      { intros ->. rewrite runs_snoc, last_status_snoc in Hcode.
        fold command in Hcode. rewrite Hstat in Hcode. exact Hcode. }
      split.
      * intros Hs. apply classify_success in Hs. rewrite Hs in Hatt.
        assert (k = m).
        { destruct (Nat.eq_dec k m) as [E|E]; [exact E|].
          destruct (Hmid k ltac:(lia)) as [Hf _]. contradiction. }
        subst k. repeat apply conj; auto. apply Hnil. exact Hatt.
      * intros Hs. apply classify_failure in Hs. rewrite Hs in Hatt.
        destruct (Nat.eq_dec k m) as [E|E]; [|left; lia].
        subst k. right. repeat apply conj; auto.
        destruct err as [e|].
        -- destruct (Herr e eq_refl) as [[He _]|[He _]].
           ++ left. congruence.
           ++ right. rewrite He, Hatt. reflexivity.
        -- destruct Hnil as [Hnil _]. specialize (Hnil eq_refl). congruence.
    + intros Hne. destruct err as [e|]; [|contradiction].
      destruct (Herr e eq_refl) as [[_ Hg]|(_ & _ & _ & HT)].
      * right. exact Hg.
      * left. exact HT.
Qed.

(** Scenario C: exit code 5 on every attempt and three tries. *)
Lemma C2_witness :
  let env := env_exit5 in
  let config := config_tries 0 3 in
  let command := getWindowsUpdateCommand temp_path in
  ((Z.to_nat 3 < 4)%nat ->
   runWindowsUpdate env config 4 temp_path world0 <> None)
  /\ forall code err w',
       runWindowsUpdate env config 4 temp_path world0
       = Some (code, err, w') ->
       exists m : nat,
         started w' = (started world0 ++ repeat command (S m))%list
         /\ Z.of_nat (S m) <= 3
         /\ (forall k c,
               (k <= m)%nat ->
               run_status (comm_Run env (0 + k) command) = inr c ->
               (success_code c -> k = m /\ code = c /\ err = None)
               /\ (~ success_code c ->
                   (k < m)%nat
                   \/ (k = m /\ code = c
                       /\ (err = Some (exit_status_error c)
                           \/ err = Some (RetryExhaustedError
                                            (Some (exit_status_error c)))))))
         /\ (err <> None ->
             Z.of_nat (S m) = 3
             \/ expired env (UpdateTimeout config) (polls world0 + m) = true).
Proof.
  apply (C2_retry_until_success_or_exhausted
           env_exit5 (config_tries 0 3) 4 temp_path world0).
  - vm_compute. discriminate.
  - vm_compute. reflexivity.
Defined.

(** C4 (amended).  A call with an empty path returns 1 and an error and
    starts nothing.  A call with a path that is not empty makes at least
    one attempt; the integer it returns is the exit code observed last, or
    0 when no attempt observed one; and the error it returns is nil
    exactly when the last attempt observed 0, 101 or 2147942501. *)
Theorem C4_exit_code_and_error
  (env : Env) (config : Config) (fuel : nat) (script : string)
  (w w' : World) (code : Z) (err : option error) :
  runWindowsUpdate env config fuel script w = Some (code, err, w') ->
  (len script = 0 -> code = 1 /\ err <> None /\ started w' = started w)
  /\ (len script <> 0 ->
      exists m : nat,
        let command := getWindowsUpdateCommand script in
        let a := List.length (started w) in
        started w' = (started w ++ repeat command (S m))%list
        /\ code = last (observed (runs env command a (S m))) 0
        /\ (err = None <->
            exists c, run_status (comm_Run env (a + m) command) = inr c
                      /\ success_code c)).
Proof.
  intros H. split.
  - intros Hlen. rewrite runWindowsUpdate_empty in H by assumption.
    injection H as <- <- <-. repeat apply conj; [reflexivity|discriminate|].
    reflexivity.
  - intros Hlen.
    destruct (runWindowsUpdate_trace env config _ _ _ _ _ _ Hlen H)
      as (m & Hst & Hcode & _ & _ & Hnil & _).
    cbv zeta in *. exists m. repeat apply conj.
    + exact Hst.
    + rewrite <- last_status_observed. exact Hcode.
    + intros He. apply attempt_error_None. apply Hnil. exact He.
    + intros He. apply Hnil. apply attempt_error_None. exact He.
Qed.

Lemma C4_witness :
  exists w',
    (len temp_path = 0 ->
     0 = 1 /\ @None error <> None /\ started w' = started world0)
    /\ (len temp_path <> 0 ->
        exists m : nat,
          let command := getWindowsUpdateCommand temp_path in
          let a := List.length (started world0) in
          started w' = (started world0 ++ repeat command (S m))%list
          /\ 0 = last (observed (runs env_second_try command a (S m))) 0
          /\ (@None error = None <->
              exists c,
                run_status (comm_Run env_second_try (a + m) command) = inr c
                /\ success_code c)).
Proof.
  eexists.
  eapply (C4_exit_code_and_error
            env_second_try (config_tries 0 0) 6 temp_path world0 _ 0 None).
  lazy. reflexivity.
Defined.

(** C4 as stated fails: the communicator is unreachable and one try is
    allowed.  The call returns the integer 0, which no attempt observed and
    which the [switch] takes for a success, together with an error. *)
Lemma C4_counterexample :
  exists w',
    runWindowsUpdate env_unreachable (config_tries 0 1) 6 temp_path world0
    = Some (0,
            Some (RetryExhaustedError
                    (Some (ErrorString "connection refused"))),
            w')
    /\ observed (runs env_unreachable (getWindowsUpdateCommand temp_path)
                   0 (List.length (started w'))) = []
    /\ List.length (started w') = 1%nat
    /\ classify 0 = None.
Proof.
  eexists. split; [lazy; reflexivity|].
  split; [lazy; reflexivity|]. split; lazy; reflexivity.
Qed.

(** C10.  The retry statement of [runWindowsUpdate] returns (for a
    positive number of tries and fuel for one turn more) and leaves in
    [scriptOutput] what the attempts wrote to stdout, attempt after
    attempt, and in [scriptErrors] what they wrote to stderr: the output of
    a failed attempt is kept and comes before that of the next, and the two
    streams stay apart. *)
Theorem C10_buffers_shared_across_attempts
  (env : Env) (config : Config) (fuel : nat) (command : string) (w : World) :
  (0 < int_of_uint (UpdateRetryAttempts config) ->
   (Z.to_nat (int_of_uint (UpdateRetryAttempts config)) < fuel)%nat ->
   runWindowsUpdate_retry env config fuel command w <> None)
  /\ forall err v w',
       runWindowsUpdate_retry env config fuel command w = Some (err, v, w') ->
       exists n : nat,
         let rs := runs env command (List.length (started w)) n in
         started w' = (started w ++ repeat command n)%list
         /\ scriptOutput v = List.concat (map run_stdout rs)
         /\ scriptErrors v = List.concat (map run_stderr rs).
Proof.
  split; [apply runWindowsUpdate_retry_returns|].
  intros err v w' H. unfold runWindowsUpdate_retry, retry.Run in H.
  apply update_loop_trace in H. destruct H as [n H]. cbv zeta in H.
  destruct H as (Hst & _ & _ & _ & Hout & Herr & _).
  exists n. cbv zeta. repeat apply conj; assumption.
Qed.

(** The first attempt writes "one" and "!" and exits with 5, the second
    writes "two" and "?" and exits with 0. *)
Lemma C10_witness :
  exists v w',
    (exists n : nat,
       let command := getWindowsUpdateCommand temp_path in
       let rs := runs env_second_try command (List.length (started world0)) n in
       started w' = (started world0 ++ repeat command n)%list
       /\ scriptOutput v = List.concat (map run_stdout rs)
       /\ scriptErrors v = List.concat (map run_stderr rs))
    /\ scriptOutput v = [111; 110; 101; 116; 119; 111]
    /\ scriptErrors v = [33; 63].
Proof.
  eexists. eexists. split.
  - refine (proj2 (C10_buffers_shared_across_attempts
                     env_second_try (config_tries 0 0) 6
                     (getWindowsUpdateCommand temp_path) world0)
              None _ _ _).
    lazy. reflexivity.
  - split; lazy; reflexivity.
Defined.

(** ** The encoded command *)

(** C3.  For a printable ASCII string, the command made by
    [getWindowsUpdateCommand] is the fixed prefix followed by the base64
    text of the UTF-16LE bytes of the string, and decoding that text gives
    those bytes back. *)
Theorem C3_encoded_command_round_trip (s : string) :
  printable_ascii s = true ->
  exists arg,
    getWindowsUpdateCommand s = command_prefix ++ arg
    /\ arg = base64.EncodeToString (utf16le_bytes s)
    /\ decode_b64 arg = Some (utf16le_bytes s).
Proof.
  intros Hp. exists (base64.EncodeToString (encodeUtf16Le s)).
  rewrite <- (encodeUtf16Le_printable s Hp).
  repeat apply conj; try reflexivity.
  apply decode_b64_EncodeToString, encodeUtf16Le_in_byte.
Qed.

(** A path with spaces, quotes and the name of the payload. *)
Lemma C3_witness :
  exists arg,
    getWindowsUpdateCommand temp_path = command_prefix ++ arg
    /\ arg = base64.EncodeToString (utf16le_bytes temp_path)
    /\ decode_b64 arg = Some (utf16le_bytes temp_path).
Proof.
  apply (C3_encoded_command_round_trip temp_path).
  vm_compute. reflexivity.
Defined.


(** * Further properties of the code *)

(** ** Counting the turns of a retry loop *)

Section RetryCounts.
Variable env : Env.
Context {L : Type}.
Variable cfg : retry.Config.
Variable fn : L -> M (option error * L).
(** [cnt] counts the attempts in the world. *)
Variable cnt : World -> nat.
Hypothesis always_retry : retry.ShouldRetry cfg = None.
Hypothesis fn_counts :
  forall l w r l' w',
    fn l w = Some (r, l', w') ->
    cnt w' = S (cnt w) /\ polls w' = polls w /\ slept w' = slept w.
Hypothesis cnt_polled : forall w, cnt (polled w) = cnt w.
Hypothesis cnt_asleep : forall d w, cnt (asleep d w) = cnt w.

(** A loop makes [n] attempts and sleeps [s] times, always for
    [retryDelay]; it sleeps after every attempt but the last, and once
    more when the attempts are used up. *)
Lemma loop_counts fuel :
  forall try err l w r l' w',
    retry.loop env cfg fn fuel try err l w = Some (r, l', w') ->
    exists n s : nat,
      cnt w' = (cnt w + n)%nat
      /\ slept w' = (slept w ++ repeat (retry.retryDelay cfg) s)%list
      /\ (0 < retry.Tries cfg -> try <= retry.Tries cfg ->
          try + Z.of_nat n <= retry.Tries cfg)
      /\ ((n = S s /\ (r = None \/ expired env (retry.StartTimeout cfg)
                                      (polls w + s) = true))
          \/ (n = s /\ r <> None /\ retry.Tries cfg <> 0
              /\ try + Z.of_nat n = retry.Tries cfg)).
Proof.
  induction fuel as [|fuel IH]; intros try err l w r l' w' H;
    [discriminate|].
  rewrite loop_unfold in H.
  destruct (negb (retry.Tries cfg =? 0) && (try =? retry.Tries cfg)) eqn:Ex.
  { inversion H; subst; clear H.
    apply andb_true_iff in Ex. destruct Ex as [E0 E1].
    apply negb_true_iff, Z.eqb_neq in E0. apply Z.eqb_eq in E1.
    exists 0%nat, 0%nat. simpl. rewrite app_nil_r.
    repeat apply conj; try reflexivity; try lia.
    right. repeat apply conj; try reflexivity; try assumption; try lia.
    discriminate. }
  assert (Hne : 0 < retry.Tries cfg -> try <= retry.Tries cfg ->
                try + 1 <= retry.Tries cfg).
  { intros Hpos Hle.
    assert (try <> retry.Tries cfg).
    { intros ->. rewrite Z.eqb_refl in Ex.
      destruct (retry.Tries cfg =? 0) eqn:E0; [lia|discriminate]. }
    lia. }
  destruct (fn l w) as [[[[e1|] l1] w1]|] eqn:Efn; try discriminate.
  2:{ inversion H; subst; clear H.
      destruct (fn_counts _ _ _ _ _ Efn) as (Hc & Hp & Hs).
      exists 1%nat, 0%nat. simpl. rewrite app_nil_r.
      repeat apply conj; try assumption; try lia.
      left. split; [reflexivity|]. left. reflexivity. }
  destruct (fn_counts _ _ _ _ _ Efn) as (Hc & Hp & Hs).
  unfold retry.shouldRetry in H. rewrite always_retry in H. cbn [negb] in H.
  destruct (expired env (retry.StartTimeout cfg) (polls w1)) eqn:Eg.
  { inversion H; subst; clear H.
    exists 1%nat, 0%nat. simpl. rewrite app_nil_r.
    split; [rewrite cnt_polled; lia|].
    split; [assumption|]. split; [intros; lia|].
    left. split; [reflexivity|]. right.
    rewrite Nat.add_0_r, <- Hp. exact Eg. }
  apply IH in H. destruct H as (n & s & Hcn & Hsl & Hb & Hend).
  rewrite cnt_asleep, cnt_polled in Hcn. simpl in Hsl.
  exists (S n), (S s). repeat apply conj.
  - lia.
  - rewrite Hsl, Hs, <- app_assoc. reflexivity.
  - intros Hpos Hle. specialize (Hne Hpos Hle). specialize (Hb Hpos Hne). lia.
  - destruct Hend as [(-> & Hr)|(-> & Hr & HT & Htry)].
    + left. split; [reflexivity|].
      destruct Hr as [Hr|Hr]; [left; exact Hr|right].
      simpl in Hr. rewrite Hp in Hr.
      replace (polls w + S s)%nat with (S (polls w) + s)%nat by lia.
      exact Hr.
    + right. repeat apply conj; try assumption; lia.
Qed.
End RetryCounts.

(** ** Prepare *)

Lemma flat_map_refused (ok : string -> bool) (msg : string) (xs : list string) :
  flat_map (fun x => if ok x then [] else [ErrorString (msg ++ x)]) xs
  = map (fun x => ErrorString (msg ++ x))
      (filter (fun x => negb (ok x)) xs).
Proof.
  induction xs as [|x xs IH]; [reflexivity|].
  simpl. destruct (ok x); simpl; rewrite IH; reflexivity.
Qed.

Lemma validation_errors_eq (abs_ok uuid_ok : string -> bool) (c : Config) :
  validation_errors abs_ok uuid_ok c
  = (map (fun x => ErrorString
                     ("invalid file path for provided cab file: " ++ x))
         (refused abs_ok (CabFiles c))
     ++ map (fun x => ErrorString
                        ("invalid Windows Category UUID format: " ++ x))
          (refused uuid_ok (CategoryIDs c)))%list.
Proof.
  unfold validation_errors, refused.
  destruct (CabFiles c) as [cabs|], (CategoryIDs c) as [ids|];
    rewrite ?flat_map_refused; reflexivity.
Qed.

Lemma refused_nil (ok : string -> bool) (l : option (list string)) :
  refused ok l = [] <->
  (forall xs x, l = Some xs -> In x xs -> ok x = true).
Proof.
  unfold refused. destruct l as [xs|].
  - split.
    + intros H ys x Hys Hin. injection Hys as <-.
      destruct (ok x) eqn:E; [reflexivity|].
      assert (Hf : In x (filter (fun x => negb (ok x)) xs))
        by (apply filter_In; rewrite E; auto).
      rewrite H in Hf. destruct Hf.
    + intros H. induction xs as [|x xs IH]; [reflexivity|].
      simpl. rewrite (H (x :: xs) x eq_refl (or_introl eq_refl)). simpl.
      apply IH. intros ys y Hys Hin. injection Hys as <-.
      apply (H (x :: xs) y eq_refl). right. exact Hin.
  - split; [discriminate|reflexivity].
Qed.


(** X2.  [Prepare] is idempotent on what it decodes: preparing a prepared
    configuration changes nothing. *)
Theorem X2_Prepare_idempotent
  (abs_ok uuid_ok : string -> bool) (c before before' : Config) :
  fst (Prepare abs_ok uuid_ok
         (inr (fst (Prepare abs_ok uuid_ok (inr c) before))) before')
  = fst (Prepare abs_ok uuid_ok (inr c) before).
Proof.
  unfold Prepare. cbn [fst]. unfold apply_defaults.
  cbn [Username Password CategoryIDs CabFiles InstallAllUpdates
       IncludeHiddenUpdates InstallOptionalUpdates InstallRecommendedUpdates
       InstallImportantUpdates UpdateTimeout UpdateRetryAttempts
       UploadRetryAttempts UploadRetryDelay UploadTimeout RestartTimeout
       DisableRestartAfterUpdates].
  destruct (UploadRetryAttempts c <=? 0) eqn:E1;
    destruct (UploadRetryDelay c <=? 0) eqn:E2;
    destruct (UploadTimeout c <=? 0) eqn:E3;
    destruct (RestartTimeout c <=? 0) eqn:E4;
    destruct (UpdateRetryAttempts c <=? 0) eqn:E5;
    destruct (UpdateTimeout c <=? 0) eqn:E6;
    rewrite ?E1, ?E2, ?E3, ?E4, ?E5, ?E6;
    change (DefaultUploadRetryAttempts <=? 0) with false;
    change (DefaultUploadRetryDelay <=? 0) with false;
    change (DefaultUploadTimeout <=? 0) with false;
    change (DefaultRestartTimeout <=? 0) with false;
    change (DefaultUpdateRetryAttempts <=? 0) with false;
    change (DefaultUpdateTimeout <=? 0) with false;
    cbv iota;
    destruct (negb
                (InstallImportantUpdates c || InstallOptionalUpdates c
                 || InstallRecommendedUpdates c
                 || match CabFiles c with Some _ => true | None => false end
                 || match CategoryIDs c with
                    | Some _ => true
                    | None => false
                    end)); reflexivity.
Qed.


(** X4.  [Prepare] reports one error for every cab file that
    [filepath.Abs] refuses and one for every category id that [uuid.Parse]
    refuses, the cab files first, each error naming the entry; it returns
    nil exactly when no entry is refused.  The defaults are applied
    whether or not an entry is refused. *)
Theorem X4_Prepare_validation
  (abs_ok uuid_ok : string -> bool) (c before : Config) :
  let errs := snd (Prepare abs_ok uuid_ok (inr c) before) in
  errs
  = (map (fun x => ErrorString
                     ("invalid file path for provided cab file: " ++ x))
         (refused abs_ok (CabFiles c))
     ++ map (fun x => ErrorString
                        ("invalid Windows Category UUID format: " ++ x))
          (refused uuid_ok (CategoryIDs c)))%list
  /\ (errs = [] <->
      (forall xs x, CabFiles c = Some xs -> In x xs -> abs_ok x = true)
      /\ (forall xs x, CategoryIDs c = Some xs -> In x xs ->
            uuid_ok x = true))
  /\ fst (Prepare abs_ok uuid_ok (inr c) before) = apply_defaults c.
Proof.
  cbv zeta. unfold Prepare. cbn [fst snd].
  rewrite validation_errors_eq.
  change (CabFiles (apply_defaults c)) with (CabFiles c).
  change (CategoryIDs (apply_defaults c)) with (CategoryIDs c).
  repeat apply conj; try reflexivity.
  - intros H. apply app_eq_nil in H. destruct H as [H1 H2].
    apply map_eq_nil in H1, H2. split; apply refused_nil; assumption.
  - intros [H1 H2]. apply refused_nil in H1, H2. rewrite H1, H2. reflexivity.
Qed.

(** ** uploadScript, attempt by attempt *)

Section UploadCounts.
Variable env : Env.
Variable config : Config.
Variable script : list Z.

(** The files one attempt leaves, and what its success means. *)
Lemma upload_attempt_files filePath w r fp w' :
  uploadScript_attempt env script filePath w = Some (r, fp, w') ->
  (exists extra,
     files w' = (files w ++ extra)%list
     /\ (List.length extra <= 1)%nat
     /\ Forall (fun f => exists k, snd f = firstn k script) extra)
  /\ (r = None ->
      os_CreateTemp env (temps w) = inr fp
      /\ file_WriteTo env (temps w) = None
      /\ file_Close env (temps w) = None
      /\ files w' = (files w ++ [(fp, script)])%list).
Proof.
  unfold uploadScript_attempt, bind, ret, CreateTemp, WriteTo, Close.
  destruct (os_CreateTemp env (temps w)) as [msg|name] eqn:Ec.
  - intros H. injection H as <- <- <-. split; [|discriminate].
    exists []. simpl. rewrite app_nil_r. repeat apply conj; auto.
  - destruct (file_WriteTo env (temps w)) as [[k msg]|] eqn:Ew.
    + intros H. injection H as <- <- <-. split; [|discriminate].
      exists [(name, firstn k script)]. simpl.
      rewrite set_last_content_snoc. repeat apply conj; auto.
      constructor; [|constructor]. exists k. reflexivity.
    + destruct (file_Close env (temps w)) as [msg|] eqn:Ecl.
      * intros H. injection H as <- <- <-. split; [|discriminate].
        exists [(name, script)]. simpl.
        rewrite set_last_content_snoc. repeat apply conj; auto.
        constructor; [|constructor].
        exists (List.length script). simpl. symmetry. apply firstn_all.
      * intros H. injection H as <- <- <-. simpl.
        rewrite set_last_content_snoc. split.
        -- exists [(name, script)]. repeat apply conj; auto.
           constructor; [|constructor].
           exists (List.length script). simpl. symmetry. apply firstn_all.
        -- intros _. repeat apply conj; reflexivity.
Qed.

Lemma upload_attempt_counts filePath w r fp w' :
  uploadScript_attempt env script filePath w = Some (r, fp, w') ->
  temps w' = S (temps w) /\ polls w' = polls w /\ slept w' = slept w.
Proof.
  intros H.
  destruct (upload_attempt_spec env script filePath w)
    as (r1 & w1 & E & _ & _ & Hp & Hs & Ht & _).
  rewrite E in H. injection H as _ _ <-. auto.
Qed.

(** The retry statement of [uploadScript], counted. *)
Lemma upload_loop_counts fuel w r fp w' :
  0 < upload_tries config ->
  retry.loop env (upload_retry config) (uploadScript_attempt env script)
    fuel 0 None "" w = Some (r, fp, w') ->
  exists n s : nat,
    temps w' = (temps w + S n)%nat
    /\ Z.of_nat (S n) <= upload_tries config
    /\ slept w' = (slept w ++ repeat (UploadRetryDelay config) s)%list
    /\ (r = None -> s = n)
    /\ (s = n \/ (s = S n /\ Z.of_nat (S n) = upload_tries config)).
Proof.
  intros Hpos H.
  destruct (loop_counts env (upload_retry config)
              (uploadScript_attempt env script) temps eq_refl
              upload_attempt_counts (fun _ => eq_refl) (fun _ _ => eq_refl)
              _ _ _ _ _ _ _ _ H)
    as (n0 & s & Ht & Hs & Hb & Hend).
  change (retry.Tries (upload_retry config)) with (upload_tries config)
    in Hb, Hend.
  change (retry.retryDelay (upload_retry config))
    with (UploadRetryDelay config) in Hs.
  specialize (Hb Hpos ltac:(lia)).
  destruct Hend as [(-> & Hr)|(-> & Hr & HT & Htry)].
  - exists s, s. repeat apply conj; auto; lia.
  - destruct s as [|n]; [simpl in Htry; lia|].
    exists n, (S n). repeat apply conj; auto; try lia.
    intros Hn. contradiction.
Qed.

End UploadCounts.

(** X5.  For a script that is not empty and a positive number [T] of
    upload tries, [uploadScript] asks for one new temporary file per
    attempt, at least one and at most [T] in all, and between two attempts
    it sleeps for [upload_retry_delay]; a call that succeeds has slept once
    less than it has attempted, and only a call that used up its [T]
    attempts sleeps once more after the last. *)
Theorem X5_uploadScript_attempts_and_delays
  (env : Env) (config : Config) (script : list Z) (fuel : nat)
  (w w' : World) (filePath : string) (err : option error) :
  script <> [] ->
  0 < int_of_uint (UploadRetryAttempts config) ->
  uploadScript env config script fuel w = Some (filePath, err, w') ->
  exists n s : nat,
    temps w' = (temps w + S n)%nat
    /\ Z.of_nat (S n) <= int_of_uint (UploadRetryAttempts config)
    /\ slept w' = (slept w ++ repeat (UploadRetryDelay config) s)%list
    /\ (err = None -> s = n)
    /\ (s = n
        \/ (s = S n
            /\ Z.of_nat (S n) = int_of_uint (UploadRetryAttempts config))).
Proof.
  intros Hs Hpos H. rewrite uploadScript_nonempty in H by assumption.
  unfold retry.Run in H.
  destruct (retry.loop env (upload_retry config)
              (uploadScript_attempt env script) fuel 0 None "" (saying _ w))
    as [[[err0 fp] w0]|] eqn:E; [|discriminate].
  injection H as _ Herr Hw. subst err0 w0.
  exact (upload_loop_counts env config script _ _ _ _ _ Hpos E).
Qed.

(** The disk is full and two tries are allowed: two temporary files, two
    sleeps of the default 30 seconds. *)
Lemma X5_witness :
  exists w' : World,
    exists n s : nat,
      temps w' = (temps world0 + S n)%nat
      /\ Z.of_nat (S n) <= int_of_uint (UploadRetryAttempts (config_tries 2 1))
      /\ slept w'
         = (slept world0
            ++ repeat (UploadRetryDelay (config_tries 2 1)) s)%list
      /\ (Some (RetryExhaustedError
                  (Some (ErrorString
                           "error writing content to temp file: no space left on device")))
          = None -> s = n)
      /\ (s = n
          \/ (s = S n
              /\ Z.of_nat (S n)
                 = int_of_uint (UploadRetryAttempts (config_tries 2 1)))).
Proof.
  eexists.
  eapply (X5_uploadScript_attempts_and_delays
            env_disk_full (config_tries 2 1) payload1 6 world0 _ temp_path).
  - discriminate.
  - vm_compute. reflexivity.
  - lazy. reflexivity.
Defined.



(** X7.  [uploadScript] returns a nil error only if the script is not
    empty and, in its last attempt, [os.CreateTemp], the write and the
    close all succeeded; the path it returns is the name of that last
    temporary file, which holds exactly the payload. *)
Theorem X7_uploadScript_success
  (env : Env) (config : Config) (script : list Z) (fuel : nat)
  (w w' : World) (filePath : string) :
  uploadScript env config script fuel w = Some (filePath, None, w') ->
  script <> []
  /\ exists t,
       temps w' = S t
       /\ os_CreateTemp env t = inr filePath
       /\ file_WriteTo env t = None
       /\ file_Close env t = None
       /\ exists fs, files w' = (fs ++ [(filePath, script)])%list.
Proof.
  intros H.
  assert (Hs : script = [] \/ script <> [])
    by (destruct script; [left|right]; congruence).
  destruct Hs as [Es|Es].
  { rewrite uploadScript_empty in H by assumption. discriminate. }
  split; [exact Es|].
  rewrite uploadScript_nonempty in H by assumption.
  unfold retry.Run in H.
  destruct (retry.loop env (upload_retry config)
              (uploadScript_attempt env script) fuel 0 None "" (saying _ w))
    as [[[err0 fp] w0]|] eqn:E; [|discriminate].
  injection H as Hfp Herr Hw. subst fp err0 w0.
  apply loop_success_origin in E. destruct E as (l0 & x0 & E).
  destruct (upload_attempt_counts env script _ _ _ _ _ E) as (Ht & _ & _).
  destruct (upload_attempt_files env script _ _ _ _ _ E) as (_ & Hok).
  destruct (Hok eq_refl) as (Hc & Hw & Hcl & Hf).
  exists (temps x0). repeat apply conj; try assumption.
  exists (files x0). exact Hf.
Qed.

Lemma X7_witness :
  exists w',
    payload1 <> []
    /\ exists t,
         temps w' = S t
         /\ os_CreateTemp env_of_success t = inr temp_path
         /\ file_WriteTo env_of_success t = None
         /\ file_Close env_of_success t = None
         /\ exists fs, files w' = (fs ++ [(temp_path, payload1)])%list.
Proof.
  eexists.
  eapply (X7_uploadScript_success
            env_of_success (config_tries 0 0) payload1 6 world0).
  lazy. reflexivity.
Defined.

(** ** runWindowsUpdate and Provision as a whole *)

Section WholeRun.
Variable env : Env.
Variable config : Config.

(** [runWindowsUpdate] starts copies of one command and leaves the local
    files alone. *)
Lemma runWindowsUpdate_frame fuel filePath w r w' :
  runWindowsUpdate env config fuel filePath w = Some (r, w') ->
  files w' = files w /\ temps w' = temps w
  /\ exists n,
       started w'
       = (started w ++ repeat (getWindowsUpdateCommand filePath) n)%list
       /\ (0 < int_of_uint (UpdateRetryAttempts config) ->
           Z.of_nat n <= int_of_uint (UpdateRetryAttempts config)).
Proof.
  intros Hrun.
  destruct (Z.eq_dec (len filePath) 0) as [Hlen|Hlen].
  - rewrite runWindowsUpdate_empty in Hrun by assumption.
    injection Hrun as _ <-. repeat apply conj; try reflexivity.
    exists 0%nat. simpl. rewrite app_nil_r. split; [reflexivity|lia].
  - destruct r as [code err2].
    rewrite runWindowsUpdate_nonempty in Hrun by assumption.
    destruct (runWindowsUpdate_retry env config fuel
                (getWindowsUpdateCommand filePath) (saying _ w))
      as [[[err0 v] w0]|] eqn:E; [|discriminate].
    injection Hrun as _ _ <-.
    unfold runWindowsUpdate_retry, retry.Run in E.
    apply update_loop_trace in E. destruct E as [n E]. cbv zeta in E.
    unfold update_tries in E.
    destruct E as (Hs & _ & Htemps & Hfiles & _ & _ & _ & _ & Hb & _).
    repeat apply conj; try assumption.
    exists n. split; [exact Hs|]. intros Hpos. specialize (Hb Hpos). lia.
Qed.

Lemma runWindowsUpdate_returns fuel filePath w :
  0 < int_of_uint (UpdateRetryAttempts config) ->
  (Z.to_nat (int_of_uint (UpdateRetryAttempts config)) < fuel)%nat ->
  runWindowsUpdate env config fuel filePath w <> None.
Proof.
  intros Hpos Hfuel.
  destruct (Z.eq_dec (len filePath) 0) as [Hlen|Hlen].
  - rewrite runWindowsUpdate_empty by assumption. discriminate.
  - rewrite runWindowsUpdate_nonempty by assumption.
    pose proof (runWindowsUpdate_retry_returns env config fuel
                  (getWindowsUpdateCommand filePath)
                  (saying "Running Windows update..." w) Hpos Hfuel) as Hret.
    destruct (runWindowsUpdate_retry env config fuel
                (getWindowsUpdateCommand filePath) (saying _ w))
      as [[[err v] w']|]; [discriminate|contradiction].
Qed.
End WholeRun.

(** X8.  A call of [RunWithUi] that fails counts as a failed attempt of
    [runWindowsUpdate]: when it is the last attempt, the error returned is
    the error of that call, bare or wrapped by the retry package, and the
    integer returned is the exit code that an earlier attempt observed
    last (0 if none did), since a failed call does not assign
    [exitStatus]. *)
Theorem X8_runWindowsUpdate_failed_call
  (env : Env) (config : Config) (fuel : nat) (script : string)
  (w w' : World) (code : Z) (err : option error) :
  len script <> 0 ->
  runWindowsUpdate env config fuel script w = Some (code, err, w') ->
  exists m : nat,
    let command := getWindowsUpdateCommand script in
    let a := List.length (started w) in
    started w' = (started w ++ repeat command (S m))%list
    /\ forall msg,
         run_status (comm_Run env (a + m) command) = inl msg ->
         (err = Some (ErrorString msg)
          \/ err = Some (RetryExhaustedError (Some (ErrorString msg))))
         /\ code = last (observed (runs env command a m)) 0.
Proof.
  intros Hlen H.
  destruct (runWindowsUpdate_trace env config _ _ _ _ _ _ Hlen H)
    as (m & Hst & Hcode & _ & _ & Hnil & Herr).
  cbv zeta in *. exists m. split; [exact Hst|].
  intros msg Hmsg.
  assert (Hatt : attempt_error
                   (comm_Run env (List.length (started w) + m)
                      (getWindowsUpdateCommand script))
                 = Some (ErrorString msg))
    by (unfold attempt_error; rewrite Hmsg; reflexivity).
  split.
  - destruct err as [e|].
    + destruct (Herr e eq_refl) as [[He _]|[He _]].
      * left. congruence.
      * right. rewrite He, Hatt. reflexivity.
    + destruct Hnil as [Hnil _]. specialize (Hnil eq_refl). congruence.
  - rewrite runs_snoc, last_status_snoc, Hmsg in Hcode.
    rewrite <- last_status_observed. exact Hcode.
Qed.

(** The first run exits with 5, then the connection is lost: with two
    tries the call returns 5 and the wrapped error of the lost
    connection. *)
Lemma X8_witness :
  exists w' m,
    let command := getWindowsUpdateCommand temp_path in
    let a := List.length (started world0) in
    started w' = (started world0 ++ repeat command (S m))%list
    /\ forall msg,
         run_status (comm_Run env_lost_connection (a + m) command) = inl msg ->
         (Some (RetryExhaustedError (Some (ErrorString "connection lost")))
          = Some (ErrorString msg)
          \/ Some (RetryExhaustedError (Some (ErrorString "connection lost")))
             = Some (RetryExhaustedError (Some (ErrorString msg))))
         /\ 5 = last (observed (runs env_lost_connection command a m)) 0.
Proof.
  eexists.
  eapply (X8_runWindowsUpdate_failed_call
            env_lost_connection (config_tries 0 2) 6 temp_path world0).
  - vm_compute. discriminate.
  - lazy. reflexivity.
Defined.

(** X9.  [Provision] returns nil only after a staging that left the whole
    payload in the file whose non-empty path it returned, and an execution
    whose last remote run, of the command built from that path, exited
    with status 0. *)
Theorem X9_Provision_success
  (env : Env) (config : Config) (script : list Z) (fuel : nat)
  (w w' : World) :
  Provision env config script fuel w = Some (None, w') ->
  exists filePath w1 m,
    uploadScript env config script fuel
      (saying "Starting Windows Update Provisioner." w)
    = Some (filePath, None, w1)
    /\ len filePath <> 0
    /\ (exists fs, files w' = (fs ++ [(filePath, script)])%list)
    /\ started w'
       = (started w
          ++ repeat (getWindowsUpdateCommand filePath) (S m))%list
    /\ run_status
         (comm_Run env (List.length (started w) + m)
            (getWindowsUpdateCommand filePath)) = inr 0.
Proof.
  intros H. rewrite Provision_eq in H.
  destruct (uploadScript env config script fuel (saying _ w))
    as [[[filePath [e|]] w1]|] eqn:Eup; try discriminate.
  destruct (len filePath =? 0) eqn:Elen; [discriminate|].
  apply Z.eqb_neq in Elen.
  destruct (runWindowsUpdate env config fuel filePath (saying _ w1))
    as [[[code [e|]] w2]|] eqn:Erun; try discriminate.
  destruct (code =? 0) eqn:Ecode; [|discriminate].
  apply Z.eqb_eq in Ecode. subst code. injection H as <-.
  exists filePath, w1.
  pose proof (uploadScript_trace env config script _ _ _ _ _ Eup)
    as (Hst1 & _ & _).
  destruct (uploadScript_stores env config script _ _ _ _ Eup) as [fs Hfs].
  destruct (runWindowsUpdate_frame env config _ _ _ _ _ Erun)
    as (Hfiles & _ & _).
  destruct (runWindowsUpdate_trace env config _ _ _ _ _ _ Elen Erun)
    as (m & Hst & Hcode & _ & _ & Hnil & _).
  cbv zeta in *.
  change (started (saying ("Successfully created Windows Update script: "
                           ++ filePath) w1)) with (started w1) in Hst, Hcode, Hnil.
  change (files (saying ("Successfully created Windows Update script: "
                         ++ filePath) w1)) with (files w1) in Hfiles.
  change (started (saying "Starting Windows Update Provisioner." w))
    with (started w) in Hst1.
  rewrite Hst1 in Hst, Hcode, Hnil.
  exists m. repeat apply conj.
  - reflexivity.
  - exact Elen.
  - exists fs. rewrite Hfiles. exact Hfs.
  - exact Hst.
  - destruct Hnil as [Hnil _]. specialize (Hnil eq_refl).
    apply attempt_error_None in Hnil. destruct Hnil as (c & Hc & _).
    rewrite runs_snoc, last_status_snoc, Hc in Hcode. subst c. exact Hc.
Qed.

(** The second execution exits with 0. *)
Lemma X9_witness :
  exists w' filePath w1 m,
    uploadScript env_second_try (config_tries 0 0) payload1 6
      (saying "Starting Windows Update Provisioner." world0)
    = Some (filePath, None, w1)
    /\ len filePath <> 0
    /\ (exists fs, files w' = (fs ++ [(filePath, payload1)])%list)
    /\ started w'
       = (started world0
          ++ repeat (getWindowsUpdateCommand filePath) (S m))%list
    /\ run_status
         (comm_Run env_second_try (List.length (started world0) + m)
            (getWindowsUpdateCommand filePath)) = inr 0.
Proof.
  eexists.
  eapply (X9_Provision_success
            env_second_try (config_tries 0 0) payload1 6 world0).
  lazy. reflexivity.
Defined.

(** The tries of a prepared configuration. *)
Lemma prepared_tries (c : Config) :
  0 <= UploadRetryAttempts c < 2 ^ 63 ->
  0 <= UpdateRetryAttempts c < 2 ^ 63 ->
  let config := apply_defaults c in
  int_of_uint (UploadRetryAttempts config) = UploadRetryAttempts config
  /\ 0 < UploadRetryAttempts config
  /\ int_of_uint (UpdateRetryAttempts config) = UpdateRetryAttempts config
  /\ 0 < UpdateRetryAttempts config.
Proof.
  intros Hu Hr. cbv zeta. unfold apply_defaults, int_of_uint.
  cbn [UploadRetryAttempts UpdateRetryAttempts].
  destruct (UploadRetryAttempts c <=? 0) eqn:E1;
    destruct (UpdateRetryAttempts c <=? 0) eqn:E2;
    rewrite ?Z.leb_le, ?Z.leb_gt in *;
    unfold DefaultUploadRetryAttempts, DefaultUpdateRetryAttempts;
    repeat apply conj; try reflexivity; try lia;
    match goal with
    | |- (if ?x <? 2 ^ 63 then _ else _) = _ =>
        replace (x <? 2 ^ 63) with true
          by (symmetry; apply Z.ltb_lt; lia); reflexivity
    end.
Qed.

Lemma uploadScript_temps_bound env config script fuel w filePath err w' :
  0 < int_of_uint (UploadRetryAttempts config) ->
  uploadScript env config script fuel w = Some (filePath, err, w') ->
  (temps w <= temps w')%nat
  /\ Z.of_nat (temps w' - temps w) <= int_of_uint (UploadRetryAttempts config).
Proof.
  intros Hpos H.
  assert (Hs : script = [] \/ script <> [])
    by (destruct script; [left|right]; congruence).
  destruct Hs as [Es|Es].
  - rewrite uploadScript_empty in H by assumption.
    injection H as _ _ <-. simpl. split; [lia|].
    rewrite Nat.sub_diag. simpl. lia.
  - rewrite uploadScript_nonempty in H by assumption.
    unfold retry.Run in H.
    destruct (retry.loop env (upload_retry config)
                (uploadScript_attempt env script) fuel 0 None ""
                (saying _ w)) as [[[err0 fp] w0]|] eqn:E; [|discriminate].
    injection H as _ _ Hw. subst w0.
    destruct (upload_loop_counts env config script _ _ _ _ _ Hpos E)
      as (n & s & Ht & Hb & _).
    simpl in Ht. unfold upload_tries in Hb. split; [lia|].
    replace (temps w' - temps w)%nat with (S n) by lia. exact Hb.
Qed.

(** X10.  After [Prepare], with retry counts that [int] keeps as they are,
    [Provision] returns (given fuel for one turn more than either count),
    having asked for at most [upload_retry_attempts] temporary files and
    started at most [update_retry_attempts] commands. *)
Theorem X10_prepared_Provision_returns
  (abs_ok uuid_ok : string -> bool) (env : Env) (c before : Config)
  (script : list Z) (fuel : nat) (w : World) :
  0 <= UploadRetryAttempts c < 2 ^ 63 ->
  0 <= UpdateRetryAttempts c < 2 ^ 63 ->
  let config := fst (Prepare abs_ok uuid_ok (inr c) before) in
  (Z.to_nat (UploadRetryAttempts config) < fuel)%nat ->
  (Z.to_nat (UpdateRetryAttempts config) < fuel)%nat ->
  exists r w',
    Provision env config script fuel w = Some (r, w')
    /\ (temps w <= temps w')%nat
    /\ Z.of_nat (temps w' - temps w) <= UploadRetryAttempts config
    /\ (List.length (started w) <= List.length (started w'))%nat
    /\ Z.of_nat (List.length (started w') - List.length (started w))
       <= UpdateRetryAttempts config.
Proof.
  intros Hup Hrun config. change config with (apply_defaults c).
  clear config.
  destruct (prepared_tries c Hup Hrun) as (Eu & Pu & Er & Pr).
  cbv zeta in Eu, Pu, Er, Pr.
  set (config := apply_defaults c) in *.
  intros Hf1 Hf2.
  rewrite Provision_eq.
  pose proof (uploadScript_returns env config script fuel
                (saying "Starting Windows Update Provisioner." w)
                ltac:(rewrite Eu; exact Pu) ltac:(rewrite Eu; exact Hf1))
    as Hret.
  destruct (uploadScript env config script fuel (saying _ w))
    as [[[filePath err] w1]|] eqn:Eup; [clear Hret|contradiction].
  pose proof (uploadScript_trace env config script _ _ _ _ _ Eup)
    as (Hst1 & _ & _).
  destruct (uploadScript_temps_bound env config script _ _ _ _ _
              ltac:(rewrite Eu; exact Pu) Eup) as (Ht1 & Ht2).
  rewrite Eu in Ht2.
  change (temps (saying "Starting Windows Update Provisioner." w))
    with (temps w) in Ht1, Ht2.
  change (started (saying "Starting Windows Update Provisioner." w))
    with (started w) in Hst1.
  assert (Hstay : Z.of_nat (List.length (started w1)
                            - List.length (started w))
                  <= UpdateRetryAttempts config)
    by (rewrite Hst1, Nat.sub_diag; change (Z.of_nat 0) with 0; lia).
  destruct err as [e|].
  { eexists _, _. split; [reflexivity|].
    repeat apply conj; try assumption. rewrite Hst1. lia. }
  destruct (len filePath =? 0).
  { eexists _, _. split; [reflexivity|].
    repeat apply conj; try assumption. rewrite Hst1. lia. }
  pose proof (runWindowsUpdate_returns env config fuel filePath
                (saying ("Successfully created Windows Update script: "
                         ++ filePath) w1)
                ltac:(rewrite Er; exact Pr) ltac:(rewrite Er; exact Hf2))
    as Hret.
  destruct (runWindowsUpdate env config fuel filePath (saying _ w1))
    as [[[code err2] w2]|] eqn:Erun; [clear Hret|contradiction].
  destruct (runWindowsUpdate_frame env config _ _ _ _ _ Erun)
    as (_ & Ht & n & Hst & Hn).
  specialize (Hn ltac:(rewrite Er; exact Pr)). rewrite Er in Hn.
  change (temps (saying ("Successfully created Windows Update script: "
                         ++ filePath) w1)) with (temps w1) in Ht.
  change (started (saying ("Successfully created Windows Update script: "
                           ++ filePath) w1)) with (started w1) in Hst.
  assert (Hlen : List.length (started w2)
                 = (List.length (started w) + n)%nat)
    by (rewrite Hst, Hst1, length_app, repeat_length; reflexivity).
  assert (Hfinal :
            (temps w <= temps w2)%nat
            /\ Z.of_nat (temps w2 - temps w) <= UploadRetryAttempts config
            /\ (List.length (started w) <= List.length (started w2))%nat
            /\ Z.of_nat (List.length (started w2) - List.length (started w))
               <= UpdateRetryAttempts config).
  { rewrite Ht, Hlen.
    replace (List.length (started w) + n - List.length (started w))%nat
      with n by lia.
    repeat apply conj; try assumption; lia. }
  destruct err2 as [e|]; eexists _, _; (split; [reflexivity|exact Hfinal]).
Qed.

(** Nothing is specified and every execution exits with 5: five commands
    are started, one temporary file is used. *)
Lemma X10_witness :
  let config :=
    fst (Prepare (fun _ => true) (fun _ => true) (inr config0) config0) in
  exists r w',
    Provision env_exit5 config payload1 6 world0 = Some (r, w')
    /\ (temps world0 <= temps w')%nat
    /\ Z.of_nat (temps w' - temps world0) <= UploadRetryAttempts config
    /\ (List.length (started world0) <= List.length (started w'))%nat
    /\ Z.of_nat (List.length (started w') - List.length (started world0))
       <= UpdateRetryAttempts config.
Proof.
  apply (X10_prepared_Provision_returns
           (fun _ => true) (fun _ => true) env_exit5 config0 config0
           payload1 6 world0).
  - vm_compute. split; [discriminate|reflexivity].
  - vm_compute. split; [discriminate|reflexivity].
  - vm_compute. lia.
  - vm_compute. lia.
Defined.

(** ** The encoded command, beyond printable ASCII *)

Lemma encodeUtf16Le_cons_ascii c s :
  ascii_byte c = true ->
  encodeUtf16Le (String c s) = byte_of_ascii c :: 0 :: encodeUtf16Le s.
Proof.
  unfold ascii_byte. intros Hc. apply Z.ltb_lt in Hc.
  assert (H0 : 0 <= byte_of_ascii c)
    by (unfold byte_of_ascii; apply N2Z.is_nonneg).
  rewrite !encodeUtf16Le_eq. cbn [utf8.runes]. cbv zeta.
  set (u := byte_of_ascii c) in *.
  assert (E1 : utf8.first u = Some (1, 0, 0)).
  { unfold utf8.first.
    replace (u <? 128) with true by (symmetry; apply Z.ltb_lt; lia).
    reflexivity. }
  rewrite E1. cbv beta iota. rewrite Z.eqb_refl.
  assert (E2 : utf16.units u = [u]).
  { unfold utf16.units, utf16.surr1.
    replace (0 <=? u) with true by (symmetry; apply Z.leb_le; lia).
    replace (u <? 55296) with true by (symmetry; apply Z.ltb_lt; lia).
    simpl. unfold uint16. rewrite Z.mod_small by lia. reflexivity. }
  unfold utf16.Encode. cbn [flat_map]. rewrite E2. cbn [app flat_map].
  unfold le_bytes at 1, byte. simpl app.
  rewrite Z.shiftr_div_pow2 by lia. change (2 ^ 8) with 256.
  f_equal; [|f_equal]; by_div_mod.
Qed.

Lemma encodeUtf16Le_cons_invalid c s :
  utf8.first (byte_of_ascii c) = None ->
  encodeUtf16Le (String c s) = 253 :: 255 :: encodeUtf16Le s.
Proof.
  intros Hc. rewrite !encodeUtf16Le_eq. cbn [utf8.runes]. cbv zeta.
  rewrite Hc. reflexivity.
Qed.

Lemma byte_of_ascii_inj c1 c2 :
  byte_of_ascii c1 = byte_of_ascii c2 -> c1 = c2.
Proof.
  unfold byte_of_ascii. intros H. apply N2Z.inj in H.
  rewrite <- (ascii_N_embedding c1), <- (ascii_N_embedding c2), H.
  reflexivity.
Qed.

Lemma encodeUtf16Le_ascii_inj s1 :
  forall s2,
    all_chars ascii_byte s1 = true -> all_chars ascii_byte s2 = true ->
    encodeUtf16Le s1 = encodeUtf16Le s2 -> s1 = s2.
Proof.
  induction s1 as [|c1 s1 IH]; intros [|c2 s2] H1 H2 E.
  - reflexivity.
  - simpl in H2. apply andb_true_iff in H2. destruct H2 as [Hc2 _].
    rewrite (encodeUtf16Le_cons_ascii c2 s2 Hc2) in E. discriminate.
  - simpl in H1. apply andb_true_iff in H1. destruct H1 as [Hc1 _].
    rewrite (encodeUtf16Le_cons_ascii c1 s1 Hc1) in E. discriminate.
  - simpl in H1, H2. apply andb_true_iff in H1, H2.
    destruct H1 as [Hc1 Hs1], H2 as [Hc2 Hs2].
    rewrite (encodeUtf16Le_cons_ascii c1 s1 Hc1),
      (encodeUtf16Le_cons_ascii c2 s2 Hc2) in E.
    injection E as Ec Es.
    apply byte_of_ascii_inj in Ec. subst c2.
    f_equal. apply IH; assumption.
Qed.

Lemma append_cancel_l (p a b : string) : p ++ a = p ++ b -> a = b.
Proof.
  induction p as [|c p IH]; simpl; intros H; [exact H|].
  injection H as H. apply IH. exact H.
Qed.

Lemma EncodeToString_inj bs1 bs2 :
  Forall in_byte bs1 -> Forall in_byte bs2 ->
  base64.EncodeToString bs1 = base64.EncodeToString bs2 -> bs1 = bs2.
Proof.
  intros H1 H2 E.
  pose proof (decode_b64_EncodeToString bs1 H1) as D1.
  pose proof (decode_b64_EncodeToString bs2 H2) as D2.
  rewrite E in D1. congruence.
Qed.

Lemma b64_char_encode a : b64_char (base64.encode (Z.land a 63)) = true.
Proof.
  unfold b64_char. rewrite (b64_value_encode _ (sextet_range a)).
  reflexivity.
Qed.

Lemma EncodeToString_alphabet bs :
  all_chars b64_char (base64.EncodeToString bs) = true
  /\ (String.length (base64.EncodeToString bs) mod 4 = 0)%nat.
Proof.
  induction bs as [|s0|s0 s1|s0 s1 s2 rest [IH1 IH2]] using list_ind3.
  - split; reflexivity.
  - cbn [base64.EncodeToString all_chars String.length]. cbv zeta.
    rewrite !b64_char_encode. split; reflexivity.
  - cbn [base64.EncodeToString all_chars String.length]. cbv zeta.
    rewrite !b64_char_encode. split; reflexivity.
  - cbn [base64.EncodeToString all_chars String.length]. cbv zeta.
    rewrite !b64_char_encode, IH1. split; [reflexivity|].
    change (S (S (S (S (String.length (base64.EncodeToString rest))))))
      with (4 + String.length (base64.EncodeToString rest))%nat.
    rewrite <- Nat.Div0.add_mod_idemp_r, IH2. reflexivity.
Qed.

(** X11.  For every string, the loop of [encodeUtf16Le] stays inside the
    slice it allocated (no index out of range), and the slice it returns
    holds, for every UTF-16 code unit of the string in order, the low byte
    and then the high byte: twice as many bytes as code units, each a
    byte. *)
Theorem X11_encodeUtf16Le_layout (s : string) :
  encodeUtf16Le_run s = Some (encodeUtf16Le s)
  /\ encodeUtf16Le s = flat_map le_bytes (utf16.Encode (utf8.runes s))
  /\ List.length (encodeUtf16Le s)
     = (2 * List.length (utf16.Encode (utf8.runes s)))%nat
  /\ Forall in_byte (encodeUtf16Le s).
Proof.
  repeat apply conj.
  - unfold encodeUtf16Le. rewrite encodeUtf16Le_run_Some. reflexivity.
  - apply encodeUtf16Le_eq.
  - rewrite encodeUtf16Le_eq.
    induction (utf16.Encode (utf8.runes s)) as [|r d IH]; [reflexivity|].
    cbn [flat_map le_bytes app List.length]. rewrite IH. lia.
  - apply encodeUtf16Le_in_byte.
Qed.

(** X12.  For every path, printable or not, the command is the fixed
    prefix followed by an argument that [decode_b64] takes back to the
    bytes of [encodeUtf16Le]. *)
Theorem X12_command_decodes_for_every_path (s : string) :
  exists arg,
    getWindowsUpdateCommand s = command_prefix ++ arg
    /\ decode_b64 arg = Some (encodeUtf16Le s).
Proof.
  exists (base64.EncodeToString (encodeUtf16Le s)).
  split; [reflexivity|].
  apply decode_b64_EncodeToString, encodeUtf16Le_in_byte.
Qed.

(** X13.  On paths made of ASCII bytes [getWindowsUpdateCommand] is
    injective: two such paths get the same command only if they are the
    same path. *)
Theorem X13_command_injective_on_ascii (s1 s2 : string) :
  all_chars ascii_byte s1 = true ->
  all_chars ascii_byte s2 = true ->
  (getWindowsUpdateCommand s1 = getWindowsUpdateCommand s2 <-> s1 = s2).
Proof.
  intros H1 H2. split; [|intros ->; reflexivity].
  unfold getWindowsUpdateCommand. intros E.
  apply append_cancel_l in E.
  apply EncodeToString_inj in E; try apply encodeUtf16Le_in_byte.
  apply encodeUtf16Le_ascii_inj; assumption.
Qed.

Lemma X13_witness :
  getWindowsUpdateCommand temp_path = getWindowsUpdateCommand "C:\a.ps1"
  <-> temp_path = "C:\a.ps1".
Proof.
  apply (X13_command_injective_on_ascii temp_path "C:\a.ps1");
    vm_compute; reflexivity.
Defined.

(** X14.  Whatever the path holds (spaces, quotes, bytes that are no
    text), the argument put after [-EncodedCommand] is made of the
    characters of the base64 alphabet and of the padding only, and its
    length is a multiple of 4. *)
Theorem X14_command_argument_alphabet (s : string) :
  exists arg,
    getWindowsUpdateCommand s = command_prefix ++ arg
    /\ all_chars b64_char arg = true
    /\ (String.length arg mod 4 = 0)%nat.
Proof.
  exists (base64.EncodeToString (encodeUtf16Le s)).
  split; [reflexivity|]. apply EncodeToString_alphabet.
Qed.

(** X15.  A byte of the path that cannot start a UTF-8 sequence (0x80 to
    0xC1, 0xF5 to 0xFF) is encoded as U+FFFD, the bytes FD FF, and the
    rest of the path is encoded as if it stood alone; so two paths that
    differ in such a byte get the same command. *)
Theorem X15_invalid_byte_replaced (c1 c2 : ascii) (s : string) :
  utf8.first (byte_of_ascii c1) = None ->
  utf8.first (byte_of_ascii c2) = None ->
  encodeUtf16Le (String c1 s) = 253 :: 255 :: encodeUtf16Le s
  /\ getWindowsUpdateCommand (String c1 s)
     = getWindowsUpdateCommand (String c2 s).
Proof.
  intros H1 H2. split; [apply encodeUtf16Le_cons_invalid; exact H1|].
  unfold getWindowsUpdateCommand.
  rewrite (encodeUtf16Le_cons_invalid c1 s H1),
    (encodeUtf16Le_cons_invalid c2 s H2).
  reflexivity.
Qed.

Lemma X15_witness :
  encodeUtf16Le (String (ascii_of_nat 255) temp_path)
  = 253 :: 255 :: encodeUtf16Le temp_path
  /\ getWindowsUpdateCommand (String (ascii_of_nat 255) temp_path)
     = getWindowsUpdateCommand (String (ascii_of_nat 128) temp_path).
Proof.
  apply (X15_invalid_byte_replaced
           (ascii_of_nat 255) (ascii_of_nat 128) temp_path);
    vm_compute; reflexivity.
Defined.

(** ** What Provision tells the ui *)

Lemma uploadScript_said env config script fuel w filePath err w' :
  uploadScript env config script fuel w = Some (filePath, err, w') ->
  said w'
  = (said w
     ++ ["Creating/Uploading Windows Update script to specified target."])%list.
Proof.
  intros H.
  assert (Hs : script = [] \/ script <> [])
    by (destruct script; [left|right]; congruence).
  destruct Hs as [Es|Es].
  - rewrite uploadScript_empty in H by assumption.
    injection H as _ _ <-. reflexivity.
  - rewrite uploadScript_nonempty in H by assumption.
    unfold retry.Run in H.
    destruct (retry.loop env (upload_retry config)
                (uploadScript_attempt env script) fuel 0 None ""
                (saying _ w)) as [[[err0 fp] w0]|] eqn:E; [|discriminate].
    injection H as _ _ Hw. subst w0.
    pose proof (upload_loop_frame env config script _ _ _ _ _ _ _ _ E)
      as (_ & Hsaid & _).
    exact Hsaid.
Qed.

Lemma runWindowsUpdate_said env config fuel filePath w r w' :
  runWindowsUpdate env config fuel filePath w = Some (r, w') ->
  said w' = (said w ++ ["Running Windows update..."])%list.
Proof.
  intros Hrun.
  destruct (Z.eq_dec (len filePath) 0) as [Hlen|Hlen].
  - rewrite runWindowsUpdate_empty in Hrun by assumption.
    injection Hrun as _ <-. reflexivity.
  - destruct r as [code err2].
    rewrite runWindowsUpdate_nonempty in Hrun by assumption.
    destruct (runWindowsUpdate_retry env config fuel
                (getWindowsUpdateCommand filePath) (saying _ w))
      as [[[err0 v] w0]|] eqn:E; [|discriminate].
    injection Hrun as _ _ <-.
    unfold runWindowsUpdate_retry, retry.Run in E.
    apply update_loop_trace in E. destruct E as [n E]. cbv zeta in E.
    destruct E as (_ & Hsaid & _). exact Hsaid.
Qed.

(** X16.  The texts [Provision] gives to [ui.Say] are, in this order: the
    start of the provisioner, the start of the upload, and then, only when
    staging returned no error and a path that is not empty, the path of
    the script and the start of the update; retries say nothing. *)
Theorem X16_Provision_announcements
  (env : Env) (config : Config) (script : list Z) (fuel : nat)
  (w w' : World) (r : option error) :
  Provision env config script fuel w = Some (r, w') ->
  exists filePath err w1,
    uploadScript env config script fuel
      (saying "Starting Windows Update Provisioner." w)
    = Some (filePath, err, w1)
    /\ said w'
       = (said w
          ++ ["Starting Windows Update Provisioner.";
              "Creating/Uploading Windows Update script to specified target."]
          ++ match err with
             | Some _ => []
             | None =>
                 if len filePath =? 0 then []
                 else [("Successfully created Windows Update script: "
                        ++ filePath)%string;
                       "Running Windows update..."]
             end)%list.
Proof.
  intros H. rewrite Provision_eq in H.
  destruct (uploadScript env config script fuel (saying _ w))
    as [[[filePath err] w1]|] eqn:Eup; [|discriminate].
  exists filePath, err, w1. split; [reflexivity|].
  pose proof (uploadScript_said _ _ _ _ _ _ _ _ Eup) as Hs1.
  simpl in Hs1. rewrite <- app_assoc in Hs1. simpl in Hs1.
  destruct err as [e|].
  { injection H as _ <-. rewrite Hs1. reflexivity. }
  destruct (len filePath =? 0).
  { injection H as _ <-. rewrite Hs1. reflexivity. }
  destruct (runWindowsUpdate env config fuel filePath (saying _ w1))
    as [[[code err2] w2]|] eqn:Erun; [|discriminate].
  pose proof (runWindowsUpdate_said _ _ _ _ _ _ _ Erun) as Hs2.
  simpl in Hs2. rewrite Hs1, <- !app_assoc in Hs2. simpl in Hs2.
  destruct err2 as [e|]; injection H as _ <-; exact Hs2.
Qed.

(** Two attempts of the update: four texts, none for the retry. *)
Lemma X16_witness :
  exists w' filePath err w1,
    uploadScript env_second_try (config_tries 0 0) payload1 6
      (saying "Starting Windows Update Provisioner." world0)
    = Some (filePath, err, w1)
    /\ said w'
       = (said world0
          ++ ["Starting Windows Update Provisioner.";
              "Creating/Uploading Windows Update script to specified target."]
          ++ match err with
             | Some _ => []
             | None =>
                 if len filePath =? 0 then []
                 else [("Successfully created Windows Update script: "
                        ++ filePath)%string;
                       "Running Windows update..."]
             end)%list.
Proof.
  eexists.
  eapply (X16_Provision_announcements
            env_second_try (config_tries 0 0) payload1 6 world0 _ None).
  lazy. reflexivity.
Defined.
